(** * The conversation state store of src/store/index.ts

    A shallow embedding of the zustand store [useStore] and of its two
    selectors.  The store is a record; [set] merges a partial state into the
    current one, as zustand does; every action is the state transformer the
    source writes, and [submitQuery], the only asynchronous action, is split
    at its single [await] into the updates it performs before and after the
    backend answers. *)

From Stdlib Require Import List String ZArith NArith Bool Lia DecimalString.
From Stdlib Require Import Permutation DecimalPos DecimalZ.
Import ListNotations.
Open Scope string_scope.
Open Scope list_scope.

(** ** JavaScript values used by the store *)

(** [new Date()] and [Date.now()]: milliseconds since the epoch. *)
Definition Date := Z.

(** [a || d] on an optional string: [undefined] and the empty string are
    both falsy. *)
Definition js_or (a : option string) (d : string) : string :=
  match a with
  | Some s => if String.eqb s "" then d else s
  | None => d
  end.

(** [`${n}`] for an integral number. *)
Definition string_of_number (n : Z) : string :=
  NilZero.string_of_int (Z.to_int n).

(** [xs.includes(x)] on an array of strings. *)
Definition includes (xs : list string) (x : string) : bool :=
  existsb (String.eqb x) xs.

(** ** Types of '@/types' *)

Module Agent.
(** Modelled from the spec: the declaration of [Agent] is not part of the
    sources; the fields are those of the catalog literal. *)
Record t := mk {
  id : string;
  name : string;
  description : string;
  avatar : string;
  color : string
}.
End Agent.

Module Strategy.
(** Modelled from the spec: the declaration of [Strategy] is not part of
    the sources; the fields are those of the catalog literal. *)
Record t := mk {
  id : string;
  name : string;
  description : string;
  color : string;
  icon : string
}.
End Strategy.

(** Modelled from the spec: message roles [user | assistant | system]. *)
Inductive Role := user | assistant | system.

(** Modelled from the spec: the optional type tag of a message. *)
Inductive MessageType := error | thinking | normal.

Module Message.
(** Modelled from the spec: the declaration of [Message] is not part of
    the sources; the fields are those the store writes. *)
Record t := mk {
  id : string;
  content : string;
  role : Role;
  agentId : option string;
  agentName : option string;
  type : option MessageType;
  createdAt : Date
}.
End Message.

Module ApiSettings.
(** Modelled from the spec: the declaration of [ApiSettings] is not part
    of the sources; the fields are those of [initialApiSettings]. *)
Record t := mk {
  apiUrl : string;
  apiKey : string;
  backendType : string;
  n8nConnectionStatus : string;
  useDemoMode : bool
}.

(** [Partial<ApiSettings>] *)
Record partial := mkPartial {
  p_apiUrl : option string;
  p_apiKey : option string;
  p_backendType : option string;
  p_n8nConnectionStatus : option string;
  p_useDemoMode : option bool
}.

(** [{...a, ...p}] *)
Definition spread (a : t) (p : partial) : t :=
  {| apiUrl := match p_apiUrl p with Some v => v | None => apiUrl a end;
     apiKey := match p_apiKey p with Some v => v | None => apiKey a end;
     backendType :=
       match p_backendType p with Some v => v | None => backendType a end;
     n8nConnectionStatus :=
       match p_n8nConnectionStatus p with
       | Some v => v | None => n8nConnectionStatus a end;
     useDemoMode :=
       match p_useDemoMode p with Some v => v | None => useDemoMode a end |}.
End ApiSettings.

(** Modelled from the spec: the conversation status enum. *)
Inductive ConversationStatus := idle | active | status_error.

(** ** The catalogs and the initial settings *)

(** The two values read from [process.env] when the module is loaded. *)
Record ProcessEnv := {
  NEXT_PUBLIC_AGENT_API_URL : option string;
  NEXT_PUBLIC_AGENT_API_KEY : option string
}.

Definition initialApiSettings (env : ProcessEnv) : ApiSettings.t :=
  {| ApiSettings.apiUrl :=
       js_or (NEXT_PUBLIC_AGENT_API_URL env) "http://localhost:5678";
     ApiSettings.apiKey := js_or (NEXT_PUBLIC_AGENT_API_KEY env) "";
     ApiSettings.backendType := "n8n";
     ApiSettings.n8nConnectionStatus := "disconnected";
     ApiSettings.useDemoMode := false |}.

Definition defaultAgents : list Agent.t :=
  [ Agent.mk "data-architect" "Data Architect"
      "Designs data infrastructure and systems" "👨‍💻" "#4CAF50";
    Agent.mk "pipeline-engineer" "Pipeline Engineer"
      "Expert in building efficient data pipelines" "🔧" "#2196F3";
    Agent.mk "data-analyst" "Data Analyst"
      "Analyzes and interprets complex data" "📊" "#FF9800";
    Agent.mk "data-scientist" "Data Scientist"
      "Applies statistical models and machine learning" "🧪" "#9C27B0";
    Agent.mk "data-governance" "Governance Specialist"
      "Ensures data quality and compliance" "📋" "#F44336";
    Agent.mk "data-engineer" "Data Engineer"
      "Builds and maintains data infrastructure" "💻" "#607D8B" ].

Definition defaultStrategies : list Strategy.t :=
  [ Strategy.mk "sequential" "Sequential"
      "Agents respond in sequence, building on previous responses"
      "#2196F3" "arrow-right";
    Strategy.mk "collaborative" "Collaborative"
      "Agents work together to generate a comprehensive solution"
      "#4CAF50" "users";
    Strategy.mk "debate" "Debate"
      "Agents discuss different approaches to solve the problem"
      "#FF9800" "message-square" ].

(** ** The backend client and the environment of [submitQuery] *)

Module Response.
(** Modelled from the spec: what [n8nService.submitQuery] resolves with; the
    store reads [success], [messages] and the optional [error]. *)
Record t := mk {
  success : bool;
  messages : list Message.t;
  error : option string
}.
End Response.

(** A value caught by [catch (error)]: an instance of [Error] with its
    [message], or any other value. *)
Inductive Thrown :=
| ThrownError (message : string)
| ThrownOther.

(** How the awaited call ends. *)
Inductive Outcome :=
| Resolved (response : Response.t)
| Rejected (thrown : Thrown).

(** The arguments of [n8nService.submitQuery]. *)
Record BackendCall := {
  call_agentIds : list string;
  call_strategy : string;
  call_query : string;
  call_useDemoMode : bool
}.

(** The external collaborator: every call ends in some outcome. *)
Definition Backend := BackendCall -> Outcome.

(** A [submitQuery] suspended at its [await]: the call it made and the id
    of the placeholder its continuation will remove. *)
Record Pending := {
  request : BackendCall;
  thinkingId : string
}.

(** The values one invocation of [submitQuery] draws from its environment,
    in program order: [uuidv4()] and [new Date()] for the first message it
    builds, [Date.now()] and [new Date()] for the placeholder, and
    [uuidv4()] and [new Date()] for the error message built after the
    [await]. *)
Record SubmitEnv := {
  uuid1 : string;
  date1 : Date;
  date_now : Z;
  date2 : Date;
  uuid2 : string;
  date3 : Date
}.

(** ** The store state and zustand's [set] *)

Section Store.

(** The declaration of [Conversation] is not part of the sources and no
    action reads or builds one: it stays abstract. *)
Context {Conversation : Type}.

(** [currentTurn] counts submissions from 0, where JavaScript numbers are
    exact integers: it is a natural number here. *)
Record StoreState := mkState {
  apiSettings : ApiSettings.t;
  agents : list Agent.t;
  selectedAgentIds : list string;
  strategies : list Strategy.t;
  selectedStrategy : string;
  conversations : list Conversation;
  currentConversation : option string;
  messages : list Message.t;
  isLeftSidebarOpen : bool;
  isRightSidebarOpen : bool;
  isProcessing : bool;
  conversationStatus : ConversationStatus;
  currentTurn : N
}.

(** The object literal handed to [set]: any subset of the state's keys. *)
Record Partial := mkPartial {
  p_apiSettings : option ApiSettings.t;
  p_agents : option (list Agent.t);
  p_selectedAgentIds : option (list string);
  p_strategies : option (list Strategy.t);
  p_selectedStrategy : option string;
  p_conversations : option (list Conversation);
  p_currentConversation : option (option string);
  p_messages : option (list Message.t);
  p_isLeftSidebarOpen : option bool;
  p_isRightSidebarOpen : option bool;
  p_isProcessing : option bool;
  p_conversationStatus : option ConversationStatus;
  p_currentTurn : option N
}.

(** A whole state used as a partial one ([return state]). *)
Definition all_keys (s : StoreState) : Partial :=
  mkPartial (Some (apiSettings s)) (Some (agents s))
    (Some (selectedAgentIds s)) (Some (strategies s))
    (Some (selectedStrategy s)) (Some (conversations s))
    (Some (currentConversation s)) (Some (messages s))
    (Some (isLeftSidebarOpen s)) (Some (isRightSidebarOpen s))
    (Some (isProcessing s)) (Some (conversationStatus s))
    (Some (currentTurn s)).

Definition pick {A : Type} (new : option A) (old : A) : A :=
  match new with Some v => v | None => old end.

(** [Object.assign({}, state, partial)] *)
Definition merge (s : StoreState) (p : Partial) : StoreState :=
  {| apiSettings := pick (p_apiSettings p) (apiSettings s);
     agents := pick (p_agents p) (agents s);
     selectedAgentIds := pick (p_selectedAgentIds p) (selectedAgentIds s);
     strategies := pick (p_strategies p) (strategies s);
     selectedStrategy := pick (p_selectedStrategy p) (selectedStrategy s);
     conversations := pick (p_conversations p) (conversations s);
     currentConversation :=
       pick (p_currentConversation p) (currentConversation s);
     messages := pick (p_messages p) (messages s);
     isLeftSidebarOpen := pick (p_isLeftSidebarOpen p) (isLeftSidebarOpen s);
     isRightSidebarOpen :=
       pick (p_isRightSidebarOpen p) (isRightSidebarOpen s);
     isProcessing := pick (p_isProcessing p) (isProcessing s);
     conversationStatus :=
       pick (p_conversationStatus p) (conversationStatus s);
     currentTurn := pick (p_currentTurn p) (currentTurn s) |}.

(** One call of [set]: the argument is a function of the current state (a
    literal argument is a constant function). *)
Definition Updater := StoreState -> Partial.

Definition set (u : Updater) (s : StoreState) : StoreState := merge s (u s).

(** The calls of [set] made by one action, in program order. *)
Definition run (us : list Updater) (s : StoreState) : StoreState :=
  fold_left (fun st u => set u st) us s.

(** ** The synchronous actions, as the argument each one gives to [set] *)

Definition updateApiSettings_set (settings : ApiSettings.partial) : Updater :=
  fun state =>
    {| p_apiSettings := Some (ApiSettings.spread (apiSettings state) settings);
       p_agents := None; p_selectedAgentIds := None; p_strategies := None;
       p_selectedStrategy := None; p_conversations := None;
       p_currentConversation := None; p_messages := None;
       p_isLeftSidebarOpen := None; p_isRightSidebarOpen := None;
       p_isProcessing := None; p_conversationStatus := None;
       p_currentTurn := None |}.

Definition only_selectedAgentIds (ids : list string) : Partial :=
  {| p_apiSettings := None; p_agents := None;
     p_selectedAgentIds := Some ids; p_strategies := None;
     p_selectedStrategy := None; p_conversations := None;
     p_currentConversation := None; p_messages := None;
     p_isLeftSidebarOpen := None; p_isRightSidebarOpen := None;
     p_isProcessing := None; p_conversationStatus := None;
     p_currentTurn := None |}.

Definition selectAgent_set (agentId : string) : Updater :=
  fun state =>
    (* Maximum 4 agents can be selected at once *)
    if (4 <=? List.length (selectedAgentIds state))%nat
       && negb (includes (selectedAgentIds state) agentId)
    then all_keys state
    else only_selectedAgentIds
           (if includes (selectedAgentIds state) agentId
            then selectedAgentIds state
            else selectedAgentIds state ++ [agentId]).

Definition unselectAgent_set (agentId : string) : Updater :=
  fun state =>
    only_selectedAgentIds
      (filter (fun id => negb (String.eqb id agentId))
         (selectedAgentIds state)).

Definition setSelectedStrategy_set (strategyId : string) : Updater :=
  fun _ =>
    {| p_apiSettings := None; p_agents := None; p_selectedAgentIds := None;
       p_strategies := None; p_selectedStrategy := Some strategyId;
       p_conversations := None; p_currentConversation := None;
       p_messages := None; p_isLeftSidebarOpen := None;
       p_isRightSidebarOpen := None; p_isProcessing := None;
       p_conversationStatus := None; p_currentTurn := None |}.

Definition only_messages (ms : list Message.t) : Partial :=
  {| p_apiSettings := None; p_agents := None; p_selectedAgentIds := None;
     p_strategies := None; p_selectedStrategy := None;
     p_conversations := None; p_currentConversation := None;
     p_messages := Some ms; p_isLeftSidebarOpen := None;
     p_isRightSidebarOpen := None; p_isProcessing := None;
     p_conversationStatus := None; p_currentTurn := None |}.

Definition addMessage_set (message : Message.t) : Updater :=
  fun state => only_messages (messages state ++ [message]).

Definition addMessages_set (msgs : list Message.t) : Updater :=
  fun state => only_messages (messages state ++ msgs).

Definition setCurrentConversation_set (conversationId : option string)
  : Updater :=
  fun _ =>
    {| p_apiSettings := None; p_agents := None; p_selectedAgentIds := None;
       p_strategies := None; p_selectedStrategy := None;
       p_conversations := None;
       p_currentConversation := Some conversationId;
       p_messages := None; p_isLeftSidebarOpen := None;
       p_isRightSidebarOpen := None; p_isProcessing := None;
       p_conversationStatus := None; p_currentTurn := None |}.

Definition toggleLeftSidebar_set : Updater :=
  fun state =>
    {| p_apiSettings := None; p_agents := None; p_selectedAgentIds := None;
       p_strategies := None; p_selectedStrategy := None;
       p_conversations := None; p_currentConversation := None;
       p_messages := None;
       p_isLeftSidebarOpen := Some (negb (isLeftSidebarOpen state));
       p_isRightSidebarOpen := None; p_isProcessing := None;
       p_conversationStatus := None; p_currentTurn := None |}.

Definition toggleRightSidebar_set : Updater :=
  fun state =>
    {| p_apiSettings := None; p_agents := None; p_selectedAgentIds := None;
       p_strategies := None; p_selectedStrategy := None;
       p_conversations := None; p_currentConversation := None;
       p_messages := None; p_isLeftSidebarOpen := None;
       p_isRightSidebarOpen := Some (negb (isRightSidebarOpen state));
       p_isProcessing := None; p_conversationStatus := None;
       p_currentTurn := None |}.

Definition only_conversationStatus (status : ConversationStatus) : Partial :=
  {| p_apiSettings := None; p_agents := None; p_selectedAgentIds := None;
     p_strategies := None; p_selectedStrategy := None;
     p_conversations := None; p_currentConversation := None;
     p_messages := None; p_isLeftSidebarOpen := None;
     p_isRightSidebarOpen := None; p_isProcessing := None;
     p_conversationStatus := Some status; p_currentTurn := None |}.

Definition setConversationStatus_set (status : ConversationStatus)
  : Updater :=
  fun _ => only_conversationStatus status.

Definition resetConversation_set : Updater :=
  fun _ =>
    {| p_apiSettings := None; p_agents := None; p_selectedAgentIds := None;
       p_strategies := None; p_selectedStrategy := None;
       p_conversations := None; p_currentConversation := None;
       p_messages := Some []; p_isLeftSidebarOpen := None;
       p_isRightSidebarOpen := None; p_isProcessing := Some false;
       p_conversationStatus := Some idle; p_currentTurn := Some 0%N |}.

(** ** The synchronous actions as state transformers *)

Definition updateApiSettings (settings : ApiSettings.partial) :=
  set (updateApiSettings_set settings).
Definition selectAgent (agentId : string) := set (selectAgent_set agentId).
Definition unselectAgent (agentId : string) :=
  set (unselectAgent_set agentId).
Definition setSelectedStrategy (strategyId : string) :=
  set (setSelectedStrategy_set strategyId).
Definition addMessage (message : Message.t) := set (addMessage_set message).
Definition addMessages (msgs : list Message.t) := set (addMessages_set msgs).
Definition setCurrentConversation (conversationId : option string) :=
  set (setCurrentConversation_set conversationId).
Definition toggleLeftSidebar := set toggleLeftSidebar_set.
Definition toggleRightSidebar := set toggleRightSidebar_set.
Definition setConversationStatus (status : ConversationStatus) :=
  set (setConversationStatus_set status).
Definition resetConversation := set resetConversation_set.

(** The state the store is created with. *)
Definition initial_state (env : ProcessEnv) : StoreState :=
  {| apiSettings := initialApiSettings env;
     agents := defaultAgents;
     selectedAgentIds := [];
     strategies := defaultStrategies;
     selectedStrategy := "sequential";
     conversations := [];
     currentConversation := None;
     messages := [];
     isLeftSidebarOpen := true;
     isRightSidebarOpen := true;
     isProcessing := false;
     conversationStatus := idle;
     currentTurn := 0%N |}.

(** ** [submitQuery] *)

Definition only_isProcessing (b : bool) : Partial :=
  {| p_apiSettings := None; p_agents := None; p_selectedAgentIds := None;
     p_strategies := None; p_selectedStrategy := None;
     p_conversations := None; p_currentConversation := None;
     p_messages := None; p_isLeftSidebarOpen := None;
     p_isRightSidebarOpen := None; p_isProcessing := Some b;
     p_conversationStatus := None; p_currentTurn := None |}.

(** [ms.filter(msg => msg.id !== id)] *)
Definition without_id (id : string) (ms : list Message.t) : list Message.t :=
  filter (fun msg => negb (String.eqb (Message.id msg) id)) ms.

Definition removeById_set (id : string) : Updater :=
  fun state => only_messages (without_id id (messages state)).

Definition noAgentsMessage (env : SubmitEnv) : Message.t :=
  {| Message.id := uuid1 env;
     Message.content :=
       "Please select at least one agent before submitting a query.";
     Message.role := system;
     Message.agentId := None;
     Message.agentName := None;
     Message.type := Some error;
     Message.createdAt := date1 env |}.

Definition userMessage (env : SubmitEnv) (query : string) : Message.t :=
  {| Message.id := uuid1 env;
     Message.content := query;
     Message.role := user;
     Message.agentId := None;
     Message.agentName := None;
     Message.type := None;
     Message.createdAt := date1 env |}.

Definition thinkingMessage (env : SubmitEnv) : Message.t :=
  {| Message.id := "thinking-" ++ string_of_number (date_now env);
     Message.content := "Thinking...";
     Message.role := assistant;
     Message.agentId := Some "coordinator";
     Message.agentName := Some "Coordinator";
     Message.type := Some thinking;
     Message.createdAt := date2 env |}.

Definition errorMessage (env : SubmitEnv) (text : string) : Message.t :=
  {| Message.id := uuid2 env;
     Message.content := text;
     Message.role := system;
     Message.agentId := None;
     Message.agentName := None;
     Message.type := Some error;
     Message.createdAt := date3 env |}.

(** The arguments [submitQuery] gives the backend client, read from the
    state [get()] returned. *)
Definition call_of (query : string) (snap : StoreState) : BackendCall :=
  {| call_agentIds := selectedAgentIds snap;
     call_strategy := selectedStrategy snap;
     call_query := query;
     call_useDemoMode := ApiSettings.useDemoMode (apiSettings snap) |}.

(** From the entry of [submitQuery] to its [await] (or to the early
    [return]): the calls of [set] in order, and the suspended call if the
    backend was contacted.  [snap] is the state [get()] returned. *)
Definition submitQuery_begin (env : SubmitEnv) (query : string)
    (snap : StoreState) : list Updater * option Pending :=
  (* Validate we have agents selected *)
  if (List.length (selectedAgentIds snap) =? 0)%nat then
    ([addMessage_set (noAgentsMessage env)], None)
  else
    ([ (* Add user message *)
       addMessage_set (userMessage env query);
       (* Set processing state *)
       (fun _ =>
          {| p_apiSettings := None; p_agents := None;
             p_selectedAgentIds := None; p_strategies := None;
             p_selectedStrategy := None; p_conversations := None;
             p_currentConversation := None; p_messages := None;
             p_isLeftSidebarOpen := None; p_isRightSidebarOpen := None;
             p_isProcessing := Some true;
             p_conversationStatus :=
               Some (if (0 <? List.length (messages snap))%nat
                     then active else active);
             p_currentTurn := Some (currentTurn snap + 1)%N |});
       (* Add thinking message *)
       addMessage_set (thinkingMessage env) ],
     Some {| request := call_of query snap;
             thinkingId := Message.id (thinkingMessage env) |}).

(** The text of the message appended by the [catch] block. *)
Definition thrownText (e : Thrown) : string :=
  "Error: " ++ match e with
               | ThrownError message => message
               | ThrownOther => "Unknown error occurred"
               end.

(** From the [await] to the end of the [finally] block: the calls of [set]
    in order, for the placeholder id the continuation holds. *)
Definition submitQuery_resume (env : SubmitEnv) (thinkingId : string)
    (outcome : Outcome) : list Updater :=
  match outcome with
  | Resolved response =>
      (* Remove thinking message *)
      [removeById_set thinkingId]
      ++ (if Response.success response then
            (* Add response messages *)
            [addMessages_set (Response.messages response)]
          else
            (* Add error message *)
            [ addMessage_set
                (errorMessage env
                   (js_or (Response.error response)
                      "An unknown error occurred"));
              (fun _ => only_conversationStatus status_error) ])
      ++ [fun _ => only_isProcessing false]
  | Rejected thrown =>
      (* Handle errors *)
      [ removeById_set thinkingId;
        addMessage_set (errorMessage env (thrownText thrown));
        (fun _ => only_conversationStatus status_error) ]
      ++ [fun _ => only_isProcessing false]
  end.

(** All calls of [set] of one invocation whose awaited call is answered by
    [backend]. *)
Definition submitQuery_sets (backend : Backend) (env : SubmitEnv)
    (query : string) (snap : StoreState) : list Updater :=
  match submitQuery_begin env query snap with
  | (us, None) => us
  | (us, Some p) =>
      us ++ submitQuery_resume env (thinkingId p) (backend (request p))
  end.

(** The state just before the [await] (or at the early [return]). *)
Definition submitQuery_suspended (env : SubmitEnv) (query : string)
    (s : StoreState) : StoreState :=
  run (fst (submitQuery_begin env query s)) s.

(** One invocation of [submitQuery] run to its end, no other action of the
    store running while it awaits. *)
Definition submitQuery (backend : Backend) (env : SubmitEnv)
    (query : string) (s : StoreState) : StoreState :=
  run (submitQuery_sets backend env query s) s.

(** ** The selectors *)

Definition useSelectedAgents (s : StoreState) : list Agent.t :=
  filter (fun agent => includes (selectedAgentIds s) (Agent.id agent))
    (agents s).

Definition useSelectedStrategy (s : StoreState) : option Strategy.t :=
  find (fun strategy => String.eqb (Strategy.id strategy) (selectedStrategy s))
    (strategies s).

(** ** The store over time

    Actions of the store run to completion one after the other; a
    [submitQuery] runs up to its [await], stays suspended while other
    actions run, and is resumed when the backend answers. *)

Record World := {
  store : StoreState;
  inflight : list Pending
}.

Inductive Event :=
| Do_updateApiSettings (settings : ApiSettings.partial)
| Do_selectAgent (agentId : string)
| Do_unselectAgent (agentId : string)
| Do_setSelectedStrategy (strategyId : string)
| Do_addMessage (message : Message.t)
| Do_addMessages (msgs : list Message.t)
| Do_setCurrentConversation (conversationId : option string)
| Do_toggleLeftSidebar
| Do_toggleRightSidebar
| Do_setConversationStatus (status : ConversationStatus)
| Do_resetConversation
| Do_submitQuery (env : SubmitEnv) (query : string)
| BackendAnswers (n : nat) (env : SubmitEnv) (outcome : Outcome).

Fixpoint drop_nth {A : Type} (n : nat) (l : list A) : list A :=
  match l, n with
  | [], _ => []
  | _ :: l', O => l'
  | x :: l', S n' => x :: drop_nth n' l'
  end.

Definition on_store (f : StoreState -> StoreState) (w : World) : World :=
  {| store := f (store w); inflight := inflight w |}.

(** [None]: the event cannot happen ([n] names no suspended call). *)
Definition step (e : Event) (w : World) : option World :=
  match e with
  | Do_updateApiSettings settings =>
      Some (on_store (updateApiSettings settings) w)
  | Do_selectAgent agentId => Some (on_store (selectAgent agentId) w)
  | Do_unselectAgent agentId => Some (on_store (unselectAgent agentId) w)
  | Do_setSelectedStrategy strategyId =>
      Some (on_store (setSelectedStrategy strategyId) w)
  | Do_addMessage message => Some (on_store (addMessage message) w)
  | Do_addMessages msgs => Some (on_store (addMessages msgs) w)
  | Do_setCurrentConversation conversationId =>
      Some (on_store (setCurrentConversation conversationId) w)
  | Do_toggleLeftSidebar => Some (on_store toggleLeftSidebar w)
  | Do_toggleRightSidebar => Some (on_store toggleRightSidebar w)
  | Do_setConversationStatus status =>
      Some (on_store (setConversationStatus status) w)
  | Do_resetConversation => Some (on_store resetConversation w)
  | Do_submitQuery env query =>
      let (us, p) := submitQuery_begin env query (store w) in
      Some {| store := run us (store w);
              inflight := inflight w
                          ++ match p with Some c => [c] | None => [] end |}
  | BackendAnswers n env outcome =>
      match nth_error (inflight w) n with
      | Some p =>
          Some {| store :=
                    run (submitQuery_resume env (thinkingId p) outcome)
                      (store w);
                  inflight := drop_nth n (inflight w) |}
      | None => None
      end
  end.

(** A sequence of events, from left to right. *)
Fixpoint run_events (es : list Event) (w : World) : option World :=
  match es with
  | [] => Some w
  | e :: es' =>
      match step e w with
      | Some w' => run_events es' w'
      | None => None
      end
  end.

(** The world at the store's creation. *)
Definition initial_world (env : ProcessEnv) : World :=
  {| store := initial_state env; inflight := [] |}.

(** The worlds reached from the store's creation by events that all
    satisfy [ok]. *)
Inductive reachable_by (ok : Event -> Prop) : World -> Prop :=
| reach_init (env : ProcessEnv) : reachable_by ok (initial_world env)
| reach_step (w w' : World) (e : Event) :
    reachable_by ok w -> ok e -> step e w = Some w' -> reachable_by ok w'.

Definition reachable : World -> Prop := reachable_by (fun _ => True).

(** ** Properties of states *)

Definition agent_in_catalog (s : StoreState) (id : string) : Prop :=
  exists a, In a (agents s) /\ Agent.id a = id.

Definition strategy_in_catalog (s : StoreState) (id : string) : Prop :=
  exists st, In st (strategies s) /\ Strategy.id st = id.

(** Selected agent ids and the selected strategy id are catalog ids. *)
Definition selection_in_catalog (s : StoreState) : Prop :=
  (forall id, In id (selectedAgentIds s) -> agent_in_catalog s id)
  /\ strategy_in_catalog s (selectedStrategy s).

(** The events whose id arguments are taken from the catalogs. *)
Definition catalog_ids_only (e : Event) : Prop :=
  match e with
  | Do_selectAgent agentId => In agentId (map Agent.id defaultAgents)
  | Do_setSelectedStrategy strategyId =>
      In strategyId (map Strategy.id defaultStrategies)
  | _ => True
  end.

(** The derived view as the specification words it: walk the catalog in
    its order and keep exactly the entries whose id is selected. *)
Inductive SelectedView (selection : list string)
  : list Agent.t -> list Agent.t -> Prop :=
| view_nil : SelectedView selection [] []
| view_keep (a : Agent.t) (catalog view : list Agent.t) :
    In (Agent.id a) selection ->
    SelectedView selection catalog view ->
    SelectedView selection (a :: catalog) (a :: view)
| view_skip (a : Agent.t) (catalog view : list Agent.t) :
    ~ In (Agent.id a) selection ->
    SelectedView selection catalog view ->
    SelectedView selection (a :: catalog) view.

(** * Verification *)

(** ** Basic facts *)

Lemma includes_true_iff (xs : list string) (x : string) :
  includes xs x = true <-> In x xs.
Proof.
  unfold includes. rewrite existsb_exists. split.
  - intros [y [Hy Heq]]. apply String.eqb_eq in Heq. now subst.
  - intros H. exists x. split; [assumption | apply String.eqb_refl].
Qed.

Lemma includes_false_iff (xs : list string) (x : string) :
  includes xs x = false <-> ~ In x xs.
Proof.
  rewrite <- includes_true_iff. destruct (includes xs x); split; congruence.
Qed.

Lemma merge_all_keys (s : StoreState) : merge s (all_keys s) = s.
Proof. destruct s; reflexivity. Qed.

Lemma run_app (us vs : list Updater) (s : StoreState) :
  run (us ++ vs) s = run vs (run us s).
Proof. unfold run. apply fold_left_app. Qed.

Lemma filter_neq_notin (id : string) (l : list string) :
  ~ In id l -> filter (fun x => negb (String.eqb x id)) l = l.
Proof.
  induction l as [|x l IH]; intros Hn; simpl; [reflexivity|].
  destruct (String.eqb_spec x id) as [->|Hne]; simpl.
  - exfalso. apply Hn. now left.
  - f_equal. apply IH. intros Hin. apply Hn. now right.
Qed.

Lemma filter_neq_remove (id : string) (l : list string) :
  filter (fun x => negb (String.eqb x id)) l = remove string_dec id l.
Proof.
  induction l as [|x l IH]; simpl; [reflexivity|].
  destruct (string_dec id x) as [->|Hne].
  - rewrite String.eqb_refl. simpl. exact IH.
  - destruct (String.eqb_spec x id) as [->|_]; [congruence|].
    simpl. now rewrite IH.
Qed.

(** ** Selection *)

(** At capacity (four or more selected), an id that is not selected is
    refused: [set] receives the state itself. *)
Lemma selectAgent_full (s : StoreState) (agentId : string) :
  (4 <= List.length (selectedAgentIds s))%nat ->
  ~ In agentId (selectedAgentIds s) ->
  selectAgent agentId s = s.
Proof.
  intros Hlen Hn. unfold selectAgent, set, selectAgent_set.
  apply Nat.leb_le in Hlen. apply includes_false_iff in Hn.
  rewrite Hlen, Hn. simpl. apply merge_all_keys.
Qed.

Lemma selectAgent_selected (s : StoreState) (agentId : string) :
  In agentId (selectedAgentIds s) -> selectAgent agentId s = s.
Proof.
  intros Hin. unfold selectAgent, set, selectAgent_set.
  apply includes_true_iff in Hin. rewrite Hin, andb_false_r.
  destruct s; reflexivity.
Qed.

Lemma selectAgent_room (s : StoreState) (agentId : string) :
  (List.length (selectedAgentIds s) < 4)%nat ->
  ~ In agentId (selectedAgentIds s) ->
  selectedAgentIds (selectAgent agentId s) = selectedAgentIds s ++ [agentId].
Proof.
  intros Hlen Hn. unfold selectAgent, set, selectAgent_set.
  apply includes_false_iff in Hn.
  assert (Hl : (4 <=? List.length (selectedAgentIds s))%nat = false)
    by (apply Nat.leb_gt; exact Hlen).
  rewrite Hl, Hn. reflexivity.
Qed.

(** [selectAgent] writes no key but [selectedAgentIds]. *)
Lemma selectAgent_frame (s : StoreState) (agentId : string) :
  selectAgent agentId s
  = merge s (only_selectedAgentIds (selectedAgentIds (selectAgent agentId s))).
Proof.
  unfold selectAgent, set, selectAgent_set.
  destruct ((4 <=? List.length (selectedAgentIds s))%nat
            && negb (includes (selectedAgentIds s) agentId));
    destruct s; reflexivity.
Qed.

(** C5: in a selection state (at most four ids selected), [selectAgent id]
    leaves the whole state unchanged when exactly four ids are selected and
    [id] is not one of them; leaves the selection (indeed the state)
    unchanged when [id] is already selected; and otherwise appends [id] at
    the end of the selection, the earlier entries keeping their order. *)
Theorem selectAgent_cases (s : StoreState) (agentId : string) :
  (List.length (selectedAgentIds s) <= 4)%nat ->
  (List.length (selectedAgentIds s) = 4%nat ->
   ~ In agentId (selectedAgentIds s) ->
   selectAgent agentId s = s)
  /\ (In agentId (selectedAgentIds s) ->
      selectedAgentIds (selectAgent agentId s) = selectedAgentIds s
      /\ selectAgent agentId s = s)
  /\ (~ (List.length (selectedAgentIds s) = 4%nat
         /\ ~ In agentId (selectedAgentIds s)) ->
      ~ In agentId (selectedAgentIds s) ->
      selectedAgentIds (selectAgent agentId s)
      = selectedAgentIds s ++ [agentId]).
Proof.
  intros Hcap. split; [|split].
  - intros Hlen Hn. apply selectAgent_full; [lia | assumption].
  - intros Hin. rewrite (selectAgent_selected s agentId Hin). now split.
  - intros Hnot Hn. apply selectAgent_room; [|assumption].
    destruct (Nat.eq_dec (List.length (selectedAgentIds s)) 4) as [E|E].
    + exfalso. apply Hnot. now split.
    + lia.
Qed.

(** C9: [unselectAgent id] leaves the state unchanged when [id] is not
    selected; otherwise the new selection is the old one with [id] erased,
    the other ids staying in their order, and no other key is written. *)
Theorem unselectAgent_spec (s : StoreState) (agentId : string) :
  (~ In agentId (selectedAgentIds s) -> unselectAgent agentId s = s)
  /\ ~ In agentId (selectedAgentIds (unselectAgent agentId s))
  /\ (forall id, id <> agentId ->
        (In id (selectedAgentIds (unselectAgent agentId s))
         <-> In id (selectedAgentIds s)))
  /\ selectedAgentIds (unselectAgent agentId s)
     = remove string_dec agentId (selectedAgentIds s)
  /\ (forall before after,
        selectedAgentIds s = before ++ agentId :: after ->
        ~ In agentId before -> ~ In agentId after ->
        selectedAgentIds (unselectAgent agentId s) = before ++ after)
  /\ unselectAgent agentId s
     = merge s (only_selectedAgentIds
                  (selectedAgentIds (unselectAgent agentId s))).
Proof.
  unfold unselectAgent, set, unselectAgent_set. cbn [merge selectedAgentIds
    only_selectedAgentIds p_selectedAgentIds pick].
  repeat split.
  - intros Hn. rewrite (filter_neq_notin _ _ Hn). destruct s; reflexivity.
  - intros Hin. apply filter_In in Hin. destruct Hin as [_ Hneq].
    rewrite String.eqb_refl in Hneq. discriminate.
  - intros Hin. apply filter_In in Hin. tauto.
  - intros Hin. apply filter_In. split; [assumption|].
    destruct (String.eqb_spec id agentId); [contradiction | reflexivity].
  - apply filter_neq_remove.
  - intros before after Hsel Hb Ha. rewrite Hsel, filter_app. simpl.
    rewrite String.eqb_refl. simpl.
    now rewrite (filter_neq_notin _ _ Hb), (filter_neq_notin _ _ Ha).
Qed.

(** ** The derived view of the selected agents *)

Lemma filter_SelectedView (selection : list string) (catalog : list Agent.t) :
  SelectedView selection catalog
    (filter (fun agent => includes selection (Agent.id agent)) catalog).
Proof.
  induction catalog as [|a catalog IH]; simpl; [constructor|].
  destruct (includes selection (Agent.id a)) eqn:E.
  - apply view_keep; [now apply includes_true_iff | exact IH].
  - apply view_skip; [now apply includes_false_iff | exact IH].
Qed.

Lemma SelectedView_functional (selection : list string)
    (catalog v1 v2 : list Agent.t) :
  SelectedView selection catalog v1 ->
  SelectedView selection catalog v2 ->
  v1 = v2.
Proof.
  intros H1. revert v2.
  induction H1 as [|a catalog v Hin _ IH|a catalog v Hn _ IH];
    intros v2 H2; inversion H2; subst;
    try reflexivity; try contradiction.
  - f_equal. now apply IH.
  - now apply IH.
Qed.

(** C8: the derived view holds exactly the catalog entries whose id is
    selected, in the order of the catalog: it is the one list obtained by
    walking the agents array in order and keeping the selected entries,
    whatever the order of the selection list. *)
Theorem useSelectedAgents_catalog_order (s : StoreState) :
  SelectedView (selectedAgentIds s) (agents s) (useSelectedAgents s)
  /\ (forall view,
        SelectedView (selectedAgentIds s) (agents s) view ->
        view = useSelectedAgents s)
  /\ (forall a,
        In a (useSelectedAgents s)
        <-> In a (agents s) /\ In (Agent.id a) (selectedAgentIds s))
  /\ (forall s',
        agents s' = agents s ->
        (forall id, In id (selectedAgentIds s') <-> In id (selectedAgentIds s)) ->
        useSelectedAgents s' = useSelectedAgents s).
Proof.
  split; [|split; [|split]].
  - apply filter_SelectedView.
  - intros view Hv.
    exact (SelectedView_functional _ _ _ _ Hv (filter_SelectedView _ _)).
  - intros a. unfold useSelectedAgents. rewrite filter_In.
    now rewrite includes_true_iff.
  - intros s' Hag Hsel. unfold useSelectedAgents. rewrite Hag.
    apply filter_ext. intros a.
    destruct (includes (selectedAgentIds s) (Agent.id a)) eqn:E.
    + apply includes_true_iff, Hsel. now apply includes_true_iff.
    + apply includes_false_iff. intros Hin. apply Hsel in Hin.
      apply includes_true_iff in Hin. congruence.
Qed.

(** ** Resetting the conversation *)

(** C7: whatever the state before, [resetConversation] yields an empty
    message list, status [idle], turn counter 0 and [isProcessing] false. *)
Theorem resetConversation_resets (s : StoreState) :
  messages (resetConversation s) = []
  /\ conversationStatus (resetConversation s) = idle
  /\ currentTurn (resetConversation s) = 0%N
  /\ isProcessing (resetConversation s) = false.
Proof. repeat split. Qed.

(** C10: [resetConversation] writes no key outside the conversation
    lifecycle: the settings, both catalogs, both selections, the
    conversations, the current conversation and the two sidebar flags are
    what they were. *)
Theorem resetConversation_frame (s : StoreState) :
  apiSettings (resetConversation s) = apiSettings s
  /\ agents (resetConversation s) = agents s
  /\ selectedAgentIds (resetConversation s) = selectedAgentIds s
  /\ strategies (resetConversation s) = strategies s
  /\ selectedStrategy (resetConversation s) = selectedStrategy s
  /\ conversations (resetConversation s) = conversations s
  /\ currentConversation (resetConversation s) = currentConversation s
  /\ isLeftSidebarOpen (resetConversation s) = isLeftSidebarOpen s
  /\ isRightSidebarOpen (resetConversation s) = isRightSidebarOpen s.
Proof. repeat split. Qed.

(** ** [submitQuery] *)

Lemma without_id_absent (id : string) (ms : list Message.t) (m : Message.t) :
  In m (without_id id ms) -> Message.id m <> id.
Proof.
  unfold without_id. rewrite filter_In. intros [_ H] E.
  rewrite E, String.eqb_refl in H. discriminate.
Qed.

Lemma without_id_kept (id : string) (ms : list Message.t) (m : Message.t) :
  In m ms -> Message.id m <> id -> In m (without_id id ms).
Proof.
  intros Hin Hne. unfold without_id. apply filter_In. split; [assumption|].
  destruct (String.eqb_spec (Message.id m) id); [contradiction|reflexivity].
Qed.

Lemma without_id_unchanged (id : string) (ms : list Message.t) :
  (forall m, In m ms -> Message.id m <> id) -> without_id id ms = ms.
Proof.
  induction ms as [|m ms IH]; intros H; [reflexivity|].
  unfold without_id in *. simpl.
  destruct (String.eqb_spec (Message.id m) id) as [E|_].
  - exfalso. apply (H m); [now left | exact E].
  - simpl. f_equal. apply IH. intros m' Hin. apply H. now right.
Qed.

Lemma without_id_app (id : string) (l1 l2 : list Message.t) :
  without_id id (l1 ++ l2) = without_id id l1 ++ without_id id l2.
Proof. apply filter_app. Qed.

Lemma without_id_thinking (env : SubmitEnv) :
  without_id (Message.id (thinkingMessage env)) [thinkingMessage env] = [].
Proof. unfold without_id. simpl filter. now rewrite String.eqb_refl. Qed.

Lemma length_eqb_0_false {A : Type} (l : list A) :
  l <> [] -> (List.length l =? 0)%nat = false.
Proof. destruct l; [congruence | reflexivity]. Qed.

Lemma submitQuery_begin_none (env : SubmitEnv) (query : string)
    (s : StoreState) :
  selectedAgentIds s = [] ->
  submitQuery_begin env query s = ([addMessage_set (noAgentsMessage env)], None).
Proof. intros E. unfold submitQuery_begin. now rewrite E. Qed.

Lemma submitQuery_begin_pending (env : SubmitEnv) (query : string)
    (s : StoreState) :
  selectedAgentIds s <> [] ->
  snd (submitQuery_begin env query s)
  = Some {| request := call_of query s;
            thinkingId := Message.id (thinkingMessage env) |}.
Proof.
  intros Hne. unfold submitQuery_begin.
  now rewrite (length_eqb_0_false _ Hne).
Qed.

(** The state in which [submitQuery] awaits the backend. *)
Lemma submitQuery_suspended_state (env : SubmitEnv) (query : string)
    (s : StoreState) :
  selectedAgentIds s <> [] ->
  submitQuery_suspended env query s
  = {| apiSettings := apiSettings s;
       agents := agents s;
       selectedAgentIds := selectedAgentIds s;
       strategies := strategies s;
       selectedStrategy := selectedStrategy s;
       conversations := conversations s;
       currentConversation := currentConversation s;
       messages :=
         messages s ++ [userMessage env query; thinkingMessage env];
       isLeftSidebarOpen := isLeftSidebarOpen s;
       isRightSidebarOpen := isRightSidebarOpen s;
       isProcessing := true;
       conversationStatus := active;
       currentTurn := (currentTurn s + 1)%N |}.
Proof.
  intros Hne. unfold submitQuery_suspended, submitQuery_begin.
  rewrite (length_eqb_0_false _ Hne).
  unfold run, set, merge, addMessage_set, only_messages, pick. simpl.
  rewrite <- app_assoc. simpl.
  now destruct (0 <? List.length (messages s))%nat.
Qed.

(** An uninterrupted invocation is the resumption run in the suspended
    state. *)
Lemma submitQuery_unfold (backend : Backend) (env : SubmitEnv)
    (query : string) (s : StoreState) :
  selectedAgentIds s <> [] ->
  submitQuery backend env query s
  = run (submitQuery_resume env (Message.id (thinkingMessage env))
           (backend (call_of query s)))
      (submitQuery_suspended env query s).
Proof.
  intros Hne. unfold submitQuery, submitQuery_sets, submitQuery_suspended.
  pose proof (submitQuery_begin_pending env query s Hne) as Hp.
  destruct (submitQuery_begin env query s) as [us p]. cbn [snd] in Hp.
    subst p.
  cbn [request thinkingId fst]. apply run_app.
Qed.

(** What the continuation does to the state it resumes in. *)
Lemma resume_success (env : SubmitEnv) (tid : string)
    (response : Response.t) (s : StoreState) :
  Response.success response = true ->
  run (submitQuery_resume env tid (Resolved response)) s
  = merge s
      {| p_apiSettings := None; p_agents := None; p_selectedAgentIds := None;
         p_strategies := None; p_selectedStrategy := None;
         p_conversations := None; p_currentConversation := None;
         p_messages :=
           Some (without_id tid (messages s) ++ Response.messages response);
         p_isLeftSidebarOpen := None; p_isRightSidebarOpen := None;
         p_isProcessing := Some false;
         p_conversationStatus := None; p_currentTurn := None |}.
Proof. intros E. unfold submitQuery_resume. rewrite E. reflexivity. Qed.

Lemma resume_failure (env : SubmitEnv) (tid : string)
    (response : Response.t) (s : StoreState) :
  Response.success response = false ->
  run (submitQuery_resume env tid (Resolved response)) s
  = merge s
      {| p_apiSettings := None; p_agents := None; p_selectedAgentIds := None;
         p_strategies := None; p_selectedStrategy := None;
         p_conversations := None; p_currentConversation := None;
         p_messages :=
           Some (without_id tid (messages s)
                 ++ [errorMessage env
                       (js_or (Response.error response)
                          "An unknown error occurred")]);
         p_isLeftSidebarOpen := None; p_isRightSidebarOpen := None;
         p_isProcessing := Some false;
         p_conversationStatus := Some status_error;
         p_currentTurn := None |}.
Proof. intros E. unfold submitQuery_resume. rewrite E. reflexivity. Qed.

Lemma resume_thrown (env : SubmitEnv) (tid : string) (thrown : Thrown)
    (s : StoreState) :
  run (submitQuery_resume env tid (Rejected thrown)) s
  = merge s
      {| p_apiSettings := None; p_agents := None; p_selectedAgentIds := None;
         p_strategies := None; p_selectedStrategy := None;
         p_conversations := None; p_currentConversation := None;
         p_messages :=
           Some (without_id tid (messages s)
                 ++ [errorMessage env (thrownText thrown)]);
         p_isLeftSidebarOpen := None; p_isRightSidebarOpen := None;
         p_isProcessing := Some false;
         p_conversationStatus := Some status_error;
         p_currentTurn := None |}.
Proof. reflexivity. Qed.

(** The log once the placeholder is filtered out of the suspended state. *)
Lemma suspended_without_thinking (env : SubmitEnv) (query : string)
    (s : StoreState) :
  selectedAgentIds s <> [] ->
  without_id (Message.id (thinkingMessage env))
    (messages (submitQuery_suspended env query s))
  = without_id (Message.id (thinkingMessage env))
      (messages s ++ [userMessage env query]).
Proof.
  intros Hne. rewrite (submitQuery_suspended_state env query s Hne).
  cbn [messages].
  change [userMessage env query; thinkingMessage env]
    with ([userMessage env query] ++ [thinkingMessage env]).
  rewrite app_assoc, without_id_app, without_id_thinking.
  apply app_nil_r.
Qed.

(** C2: with no agent selected, [submitQuery] (whatever the text) makes
    one call of [set], which appends one message of role [system] and type
    [error]; the backend is not called, and [isProcessing], the status and
    the turn counter (indeed every key but [messages]) are what they
    were. *)
Theorem submitQuery_no_agents (backend : Backend) (env : SubmitEnv)
    (query : string) (s : StoreState) :
  selectedAgentIds s = [] ->
  snd (submitQuery_begin env query s) = None
  /\ submitQuery_sets backend env query s
     = [addMessage_set (noAgentsMessage env)]
  /\ (exists m,
        messages (submitQuery backend env query s) = messages s ++ [m]
        /\ Message.role m = system
        /\ Message.type m = Some error
        /\ Message.content m
           = "Please select at least one agent before submitting a query.")
  /\ isProcessing (submitQuery backend env query s) = isProcessing s
  /\ conversationStatus (submitQuery backend env query s)
     = conversationStatus s
  /\ currentTurn (submitQuery backend env query s) = currentTurn s
  /\ submitQuery backend env query s
     = merge s (only_messages (messages (submitQuery backend env query s))).
Proof.
  intros Hsel.
  assert (Hsets : submitQuery_sets backend env query s
                  = [addMessage_set (noAgentsMessage env)]).
  { unfold submitQuery_sets.
    now rewrite (submitQuery_begin_none env query s Hsel). }
  split; [now rewrite (submitQuery_begin_none env query s Hsel)|].
  split; [exact Hsets|].
  unfold submitQuery. rewrite Hsets.
  split; [exists (noAgentsMessage env); now repeat split|].
  repeat split.
Qed.

(** C1: with an agent selected and a backend call that resolves with a
    response flagged successful, [submitQuery text] first appends a user
    message whose content is [text] and then the thinking placeholder; once
    the backend has resolved, every message carrying the placeholder's id
    has been filtered out of the log, the returned messages follow in the
    order given, the turn counter is one more than before the call and the
    status is [active]. *)
Theorem submitQuery_success (backend : Backend) (env : SubmitEnv)
    (query : string) (s : StoreState) (response : Response.t) :
  selectedAgentIds s <> [] ->
  backend (call_of query s) = Resolved response ->
  Response.success response = true ->
  messages (submitQuery_suspended env query s)
  = messages s ++ [userMessage env query; thinkingMessage env]
  /\ Message.content (userMessage env query) = query
  /\ Message.role (userMessage env query) = user
  /\ Message.type (thinkingMessage env) = Some thinking
  /\ (exists kept,
        messages (submitQuery backend env query s)
        = kept ++ Response.messages response
        /\ kept = without_id (Message.id (thinkingMessage env))
                    (messages s ++ [userMessage env query])
        /\ (forall m, In m kept ->
                      Message.id m <> Message.id (thinkingMessage env)))
  /\ ((forall m, In m (Response.messages response) ->
                 Message.id m <> Message.id (thinkingMessage env)) ->
      forall m, In m (messages (submitQuery backend env query s)) ->
                Message.id m <> Message.id (thinkingMessage env))
  /\ currentTurn (submitQuery backend env query s) = (currentTurn s + 1)%N
  /\ conversationStatus (submitQuery backend env query s) = active
  /\ isProcessing (submitQuery backend env query s) = false.
Proof.
  intros Hsel Hback Hok.
  pose proof (submitQuery_suspended_state env query s Hsel) as Hsusp.
  pose proof (suspended_without_thinking env query s Hsel) as Hkept.
  rewrite (submitQuery_unfold backend env query s Hsel), Hback.
  rewrite (resume_success env _ response _ Hok).
  cbn [merge messages currentTurn conversationStatus isProcessing pick
       p_messages p_currentTurn p_conversationStatus p_isProcessing].
  rewrite Hkept. rewrite Hsusp at 1 2 3.
  cbn [messages currentTurn conversationStatus].
  repeat split.
  - eexists. split; [reflexivity|]. split; [reflexivity|].
    intros m. apply without_id_absent.
  - intros Hresp m Hin. apply in_app_or in Hin. destruct Hin as [Hin|Hin].
    + exact (without_id_absent _ _ _ Hin).
    + exact (Hresp m Hin).
Qed.

(** When the user message's id is not the placeholder's and no earlier
    message carries it, the filter removes the placeholder alone. *)
Lemma submitQuery_success_log (backend : Backend) (env : SubmitEnv)
    (query : string) (s : StoreState) (response : Response.t) :
  selectedAgentIds s <> [] ->
  backend (call_of query s) = Resolved response ->
  Response.success response = true ->
  uuid1 env <> Message.id (thinkingMessage env) ->
  (forall m, In m (messages s) ->
             Message.id m <> Message.id (thinkingMessage env)) ->
  messages (submitQuery backend env query s)
  = messages s ++ [userMessage env query] ++ Response.messages response.
Proof.
  intros Hsel Hback Hok Huuid Hold.
  rewrite (submitQuery_unfold backend env query s Hsel), Hback.
  rewrite (resume_success env _ response _ Hok).
  cbn [merge messages pick p_messages].
  rewrite (suspended_without_thinking env query s Hsel).
  rewrite without_id_unchanged; [now rewrite <- app_assoc|].
  intros m Hin. apply in_app_or in Hin. destruct Hin as [Hin|[<-|[]]].
  - now apply Hold.
  - exact Huuid.
Qed.

(** An invocation during whose [await] nothing else runs is two events of
    the store over time: the start of [submitQuery] and the answer to the
    call it suspended on. *)
Lemma submitQuery_as_events (backend : Backend) (env : SubmitEnv)
    (query : string) (w : World) :
  selectedAgentIds (store w) <> [] ->
  inflight w = [] ->
  run_events
    [Do_submitQuery env query;
     BackendAnswers 0 env (backend (call_of query (store w)))] w
  = Some {| store := submitQuery backend env query (store w);
            inflight := [] |}.
Proof.
  intros Hsel Hnone. cbn [run_events step].
  rewrite (submitQuery_unfold backend env query (store w) Hsel).
  unfold submitQuery_suspended.
  pose proof (submitQuery_begin_pending env query (store w) Hsel) as Hp.
  destruct (submitQuery_begin env query (store w)) as [us p].
  cbn [snd] in Hp. subst p. rewrite Hnone. reflexivity.
Qed.

(** C3: with an agent selected, however the backend call ends (a response
    flagged successful, a response flagged unsuccessful, or a rejection),
    [isProcessing] is false once [submitQuery] has settled, and the call of
    [set] that makes it so is the last of the invocation; this holds of the
    continuation in whatever state it resumes. *)
Theorem submitQuery_finally (backend : Backend) (env : SubmitEnv)
    (query : string) (s : StoreState) :
  selectedAgentIds s <> [] ->
  isProcessing (submitQuery backend env query s) = false
  /\ (exists earlier,
        submitQuery_sets backend env query s
        = earlier ++ [fun _ => only_isProcessing false])
  /\ (forall tid outcome s',
        isProcessing (run (submitQuery_resume env tid outcome) s') = false
        /\ exists earlier,
             submitQuery_resume env tid outcome
             = earlier ++ [fun _ => only_isProcessing false]).
Proof.
  intros Hsel.
  assert (Hresume : forall tid outcome s',
             isProcessing (run (submitQuery_resume env tid outcome) s') = false
             /\ exists earlier,
                  submitQuery_resume env tid outcome
                  = earlier ++ [fun _ => only_isProcessing false]).
  { intros tid [response|thrown] s'.
    - destruct (Response.success response) eqn:E.
      + rewrite (resume_success env tid response s' E).
        split; [reflexivity|]. unfold submitQuery_resume. rewrite E.
        rewrite app_assoc. eexists. reflexivity.
      + rewrite (resume_failure env tid response s' E).
        split; [reflexivity|]. unfold submitQuery_resume. rewrite E.
        rewrite app_assoc. eexists. reflexivity.
    - split; [reflexivity|]. unfold submitQuery_resume.
      eexists. reflexivity. }
  split; [|split; [|exact Hresume]].
  - rewrite (submitQuery_unfold backend env query s Hsel). apply Hresume.
  - unfold submitQuery_sets.
    pose proof (submitQuery_begin_pending env query s Hsel) as Hp.
    destruct (submitQuery_begin env query s) as [us p]. cbn [snd] in Hp.
    subst p.
    cbn [thinkingId request].
    destruct (Hresume (Message.id (thinkingMessage env))
                (backend (call_of query s)) s) as [_ [earlier Heq]].
    rewrite Heq, app_assoc. eexists. reflexivity.
Qed.

(** C4 (amended): with an agent selected, when the backend call fails, the
    placeholder is filtered out of the log, one message of role [system]
    and type [error] is appended and the status becomes [error].  For a
    response flagged unsuccessful the content is the response's error text
    when that text is present and not empty, and "An unknown error
    occurred" when it is absent or empty; for a rejection it is "Error: "
    followed by the message of the thrown [Error], and "Error: Unknown
    error occurred" for any other thrown value. *)
Theorem submitQuery_failure (backend : Backend) (env : SubmitEnv)
    (query : string) (s : StoreState) :
  selectedAgentIds s <> [] ->
  (forall response,
     backend (call_of query s) = Resolved response ->
     Response.success response = false ->
     exists text,
       messages (submitQuery backend env query s)
       = without_id (Message.id (thinkingMessage env))
           (messages s ++ [userMessage env query])
         ++ [errorMessage env text]
       /\ (forall e, Response.error response = Some e -> e <> ""%string ->
                     text = e)
       /\ (Response.error response = None
           \/ Response.error response = Some ""%string ->
           text = "An unknown error occurred"%string)
       /\ conversationStatus (submitQuery backend env query s)
          = status_error)
  /\ (forall thrown,
        backend (call_of query s) = Rejected thrown ->
        exists text,
          messages (submitQuery backend env query s)
          = without_id (Message.id (thinkingMessage env))
              (messages s ++ [userMessage env query])
            ++ [errorMessage env text]
          /\ (forall message, thrown = ThrownError message ->
                              text = ("Error: " ++ message)%string)
          /\ (thrown = ThrownOther ->
              text = "Error: Unknown error occurred"%string)
          /\ conversationStatus (submitQuery backend env query s)
             = status_error)
  /\ (forall m,
        In m (without_id (Message.id (thinkingMessage env))
                (messages s ++ [userMessage env query])) ->
        Message.id m <> Message.id (thinkingMessage env))
  /\ (forall text,
        Message.role (errorMessage env text) = system
        /\ Message.type (errorMessage env text) = Some error
        /\ Message.content (errorMessage env text) = text).
Proof.
  intros Hsel.
  pose proof (suspended_without_thinking env query s Hsel) as Hkept.
  split; [|split; [|split]].
  - intros response Hback Hflag.
    rewrite (submitQuery_unfold backend env query s Hsel), Hback.
    rewrite (resume_failure env _ response _ Hflag).
    cbn [merge messages conversationStatus pick p_messages
         p_conversationStatus].
    rewrite Hkept. eexists. split; [reflexivity|]. repeat split.
    + intros e He Hne. rewrite He. unfold js_or.
      destruct (String.eqb_spec e ""); [contradiction|reflexivity].
    + intros [He|He]; rewrite He; reflexivity.
  - intros thrown Hback.
    rewrite (submitQuery_unfold backend env query s Hsel), Hback.
    rewrite (resume_thrown env _ thrown _).
    cbn [merge messages conversationStatus pick p_messages
         p_conversationStatus].
    rewrite Hkept. eexists. split; [reflexivity|]. repeat split.
    + intros message ->. reflexivity.
    + intros ->. reflexivity.
  - intros m. apply without_id_absent.
  - intros text. repeat split.
Qed.

(** ** Invariants of the store over time *)

Lemma selectAgent_selection (s : StoreState) (agentId : string) :
  selectedAgentIds (selectAgent agentId s) = selectedAgentIds s
  \/ (selectedAgentIds (selectAgent agentId s)
       = selectedAgentIds s ++ [agentId]
      /\ ~ In agentId (selectedAgentIds s)
      /\ (List.length (selectedAgentIds s) < 4)%nat).
Proof.
  destruct (includes (selectedAgentIds s) agentId) eqn:E.
  - left. apply includes_true_iff in E.
    now rewrite (selectAgent_selected s agentId E).
  - apply includes_false_iff in E.
    destruct (Nat.le_gt_cases 4 (List.length (selectedAgentIds s))) as [L|L].
    + left. now rewrite (selectAgent_full s agentId L E).
    + right. split; [now apply selectAgent_room | now split].
Qed.

Lemma selectAgent_keeps (s : StoreState) (agentId : string) :
  agents (selectAgent agentId s) = agents s
  /\ strategies (selectAgent agentId s) = strategies s
  /\ selectedStrategy (selectAgent agentId s) = selectedStrategy s.
Proof. rewrite selectAgent_frame. repeat split. Qed.

Lemma unselectAgent_selection (s : StoreState) (agentId : string) :
  selectedAgentIds (unselectAgent agentId s)
  = filter (fun id => negb (String.eqb id agentId)) (selectedAgentIds s).
Proof. reflexivity. Qed.

(** What one event does to the catalogs and to the two selections. *)
Lemma step_selection (e : Event) (w w' : World) :
  step e w = Some w' ->
  agents (store w') = agents (store w)
  /\ strategies (store w') = strategies (store w)
  /\ selectedAgentIds (store w')
     = match e with
       | Do_selectAgent agentId =>
           selectedAgentIds (selectAgent agentId (store w))
       | Do_unselectAgent agentId =>
           selectedAgentIds (unselectAgent agentId (store w))
       | _ => selectedAgentIds (store w)
       end
  /\ selectedStrategy (store w')
     = match e with
       | Do_setSelectedStrategy strategyId => strategyId
       | _ => selectedStrategy (store w)
       end.
Proof.
  destruct e; cbn [step]; intros H.
  1-11: injection H as <-; cbn [on_store store];
        try (repeat split; reflexivity).
  - (* selectAgent *)
    destruct (selectAgent_keeps (store w) agentId) as (Ha & Hs & Hst).
    now rewrite Ha, Hs, Hst.
  - (* submitQuery *)
    unfold submitQuery_begin in H.
    destruct (List.length (selectedAgentIds (store w)) =? 0)%nat;
      injection H as <-; repeat split.
  - (* the backend answers *)
    destruct (nth_error (inflight w) n) as [p|]; [|discriminate].
    injection H as <-. cbn [store].
    destruct outcome as [response|thrown].
    + destruct (Response.success response) eqn:E.
      * rewrite (resume_success env _ response _ E). repeat split.
      * rewrite (resume_failure env _ response _ E). repeat split.
    + rewrite resume_thrown. repeat split.
Qed.

(** No event writes the catalogs. *)
Lemma reachable_catalogs (ok : Event -> Prop) (w : World) :
  reachable_by ok w ->
  agents (store w) = defaultAgents /\ strategies (store w) = defaultStrategies.
Proof.
  induction 1 as [env|w w' e _ [IHa IHs] _ Hstep]; [now split|].
  destruct (step_selection e w w' Hstep) as (Ha & Hs & _).
  now rewrite Ha, Hs.
Qed.

(** At most four agents are selected, and none twice. *)
Lemma reachable_capacity (ok : Event -> Prop) (w : World) :
  reachable_by ok w ->
  (List.length (selectedAgentIds (store w)) <= 4)%nat
  /\ NoDup (selectedAgentIds (store w)).
Proof.
  induction 1 as [env|w w' e _ [IHl IHn] _ Hstep];
    [split; [simpl; lia | constructor]|].
  destruct (step_selection e w w' Hstep) as (_ & _ & Hsel & _).
  rewrite Hsel. destruct e; try (now split).
  - destruct (selectAgent_selection (store w) agentId)
      as [->|(-> & Hnin & Hlt)]; [now split|].
    split.
    + rewrite length_app. simpl. lia.
    + apply NoDup_app; [assumption | repeat constructor; intros [] |].
      intros x Hx [<-|[]]. contradiction.
  - rewrite unselectAgent_selection. split.
    + pose proof (filter_length_le
                    (fun x => negb (String.eqb x agentId))
                    (selectedAgentIds (store w))). lia.
    + now apply NoDup_filter.
Qed.

Lemma agent_in_catalog_same (s s' : StoreState) (id : string) :
  agents s' = agents s -> agent_in_catalog s id -> agent_in_catalog s' id.
Proof. unfold agent_in_catalog. now intros ->. Qed.

Lemma strategy_in_catalog_same (s s' : StoreState) (id : string) :
  strategies s' = strategies s ->
  strategy_in_catalog s id -> strategy_in_catalog s' id.
Proof. unfold strategy_in_catalog. now intros ->. Qed.

(** C6 (amended): [selectAgent] and [setSelectedStrategy] store the id they
    are given without looking it up, so the catalogs bound the selections
    only when the callers pass catalog ids: in every state reached from the
    initial one by events whose [selectAgent] and [setSelectedStrategy]
    arguments are catalog ids, every selected agent id is the id of an
    entry of the agent catalog and the selected strategy is the id of an
    entry of the strategy catalog. *)
Theorem selection_in_catalog_invariant (w : World) :
  reachable_by catalog_ids_only w -> selection_in_catalog (store w).
Proof.
  intros Hreach.
  induction Hreach as [env|w w' e Hreach [IHa IHs] Hok Hstep].
  - split; [intros id []|].
    exists (Strategy.mk "sequential" "Sequential"
              "Agents respond in sequence, building on previous responses"
              "#2196F3" "arrow-right").
    split; [now left | reflexivity].
  - destruct (reachable_catalogs _ _ Hreach) as [Hcat Hstrat].
    destruct (step_selection e w w' Hstep) as (Ha & Hs & Hsel & Hst).
    split.
    + intros id Hin. apply (agent_in_catalog_same (store w)); [exact Ha|].
      rewrite Hsel in Hin. destruct e; try (now apply IHa).
      * destruct (selectAgent_selection (store w) agentId)
          as [E|(E & _)]; rewrite E in Hin; [now apply IHa|].
        apply in_app_or in Hin. destruct Hin as [Hin|[<-|[]]];
          [now apply IHa|].
        cbn [catalog_ids_only] in Hok. apply in_map_iff in Hok.
        destruct Hok as (a & Hid & Hina). exists a.
        rewrite Hcat. now split.
      * rewrite unselectAgent_selection in Hin. apply filter_In in Hin.
        now apply IHa.
    + apply (strategy_in_catalog_same (store w)); [exact Hs|].
      rewrite Hst. destruct e; try exact IHs.
      cbn [catalog_ids_only] in Hok. apply in_map_iff in Hok.
      destruct Hok as (st & Hid & Hinst). exists st.
      rewrite Hstrat. now split.
Qed.

Lemma reachable_by_run_events (ok : Event -> Prop) (es : list Event)
    (w w' : World) :
  reachable_by ok w ->
  Forall ok es ->
  run_events es w = Some w' ->
  reachable_by ok w'.
Proof.
  revert w. induction es as [|e es IH]; intros w Hw Hall Hrun.
  - injection Hrun as <-. exact Hw.
  - cbn [run_events] in Hrun. destruct (step e w) as [w1|] eqn:E;
      [|discriminate].
    inversion Hall; subst.
    apply (IH w1); [|assumption|assumption].
    now apply (reach_step ok w w1 e).
Qed.

(** * Further properties of the store *)

(** ** Selection *)

(** X1: at every moment of the store's life at most four agents are
    selected and no id is selected twice, whatever ids the callers pass. *)
Theorem selection_capacity_invariant (w : World) :
  reachable w ->
  (List.length (selectedAgentIds (store w)) <= 4)%nat
  /\ NoDup (selectedAgentIds (store w)).
Proof. apply reachable_capacity. Qed.

(** X2: no action writes the catalogs: in every reachable world the agents
    and the strategies are the arrays the store was created with. *)
Theorem catalogs_never_change (w : World) :
  reachable w ->
  agents (store w) = defaultAgents
  /\ strategies (store w) = defaultStrategies.
Proof. apply reachable_catalogs. Qed.

(** X3: selecting is idempotent and so is unselecting, in every state;
    right after [selectAgent id] the id is selected exactly when it was
    already or there was room for it, and right after [unselectAgent id] it
    is not. *)
Theorem select_unselect_idempotent (s : StoreState) (agentId : string) :
  selectAgent agentId (selectAgent agentId s) = selectAgent agentId s
  /\ unselectAgent agentId (unselectAgent agentId s) = unselectAgent agentId s
  /\ (In agentId (selectedAgentIds (selectAgent agentId s))
      <-> In agentId (selectedAgentIds s)
          \/ (List.length (selectedAgentIds s) < 4)%nat)
  /\ ~ In agentId (selectedAgentIds (unselectAgent agentId s)).
Proof.
  assert (Hun : ~ In agentId (selectedAgentIds (unselectAgent agentId s))).
  { rewrite unselectAgent_selection. intros Hin. apply filter_In in Hin.
    destruct Hin as [_ Hneq]. rewrite String.eqb_refl in Hneq.
    discriminate. }
  split; [|split; [|split]].
  - destruct (selectAgent_selection s agentId) as [E|(E & Hn & Hlt)].
    + destruct (includes (selectedAgentIds s) agentId) eqn:Hi.
      * apply includes_true_iff in Hi.
        now rewrite (selectAgent_selected s agentId Hi),
                    (selectAgent_selected s agentId Hi).
      * apply includes_false_iff in Hi.
        destruct (Nat.le_gt_cases 4 (List.length (selectedAgentIds s)))
          as [L|L].
        -- now rewrite (selectAgent_full s agentId L Hi),
                       (selectAgent_full s agentId L Hi).
        -- exfalso. rewrite (selectAgent_room s agentId L Hi) in E.
           apply (f_equal (@List.length string)) in E.
           rewrite length_app in E. simpl in E. lia.
    + apply selectAgent_selected. rewrite E. apply in_or_app.
      right. now left.
  - unfold unselectAgent at 1. unfold set, unselectAgent_set.
    rewrite (filter_neq_notin _ _ Hun).
    destruct (unselectAgent agentId s); reflexivity.
  - split.
    + intros Hin.
      destruct (selectAgent_selection s agentId) as [E|(_ & _ & Hlt)];
        [left; now rewrite <- E | now right].
    + intros [Hin|Hlt].
      * now rewrite (selectAgent_selected s agentId Hin).
      * destruct (includes (selectedAgentIds s) agentId) eqn:Hi.
        -- apply includes_true_iff in Hi.
           now rewrite (selectAgent_selected s agentId Hi).
        -- apply includes_false_iff in Hi.
           rewrite (selectAgent_room s agentId Hlt Hi).
           apply in_or_app. right. now left.
  - exact Hun.
Qed.

(** X4: selecting an id that was not selected, when there is room, and
    unselecting it again gives back the state one started from. *)
Theorem select_then_unselect (s : StoreState) (agentId : string) :
  ~ In agentId (selectedAgentIds s) ->
  (List.length (selectedAgentIds s) < 4)%nat ->
  unselectAgent agentId (selectAgent agentId s) = s.
Proof.
  intros Hn Hlt. unfold unselectAgent, set, unselectAgent_set.
  rewrite (selectAgent_frame s agentId).
  rewrite (selectAgent_room s agentId Hlt Hn).
  cbn [merge selectedAgentIds only_selectedAgentIds p_selectedAgentIds pick].
  rewrite filter_app, (filter_neq_notin _ _ Hn). simpl.
  rewrite String.eqb_refl. simpl. rewrite app_nil_r.
  destruct s; reflexivity.
Qed.

Lemma filter_neq_shorter (id : string) (l : list string) :
  In id l ->
  (List.length (filter (fun x => negb (String.eqb x id)) l)
   < List.length l)%nat.
Proof.
  induction l as [|x l IH]; intros Hin; [destruct Hin|].
  simpl. destruct (String.eqb_spec x id) as [->|Hne]; simpl.
  - pose proof (filter_length_le (fun x => negb (String.eqb x id)) l). lia.
  - destruct Hin as [E|Hin]; [congruence|]. apply IH in Hin. lia.
Qed.

(** X5: unselecting a selected agent and selecting it again moves its id
    to the end of the selection, and the derived view, which follows the
    catalog, is what it was. *)
Theorem reselect_moves_to_end (s : StoreState) (agentId : string) :
  In agentId (selectedAgentIds s) ->
  (List.length (selectedAgentIds s) <= 4)%nat ->
  selectedAgentIds (selectAgent agentId (unselectAgent agentId s))
  = remove string_dec agentId (selectedAgentIds s) ++ [agentId]
  /\ useSelectedAgents (selectAgent agentId (unselectAgent agentId s))
     = useSelectedAgents s.
Proof.
  intros Hin Hcap.
  assert (Hn : ~ In agentId (selectedAgentIds (unselectAgent agentId s))).
  { rewrite unselectAgent_selection. intros H. apply filter_In in H.
    destruct H as [_ H]. rewrite String.eqb_refl in H. discriminate. }
  assert (Hlt : (List.length (selectedAgentIds (unselectAgent agentId s))
                 < 4)%nat).
  { rewrite unselectAgent_selection.
    pose proof (filter_neq_shorter agentId _ Hin). lia. }
  pose proof (selectAgent_room _ agentId Hlt Hn) as Hsel.
  split.
  - rewrite Hsel, unselectAgent_selection. now rewrite filter_neq_remove.
  - unfold useSelectedAgents. rewrite Hsel.
    destruct (selectAgent_keeps (unselectAgent agentId s) agentId)
      as (Ha & _).
    rewrite Ha. change (agents (unselectAgent agentId s)) with (agents s).
    apply filter_ext. intros a. rewrite unselectAgent_selection.
    destruct (includes (selectedAgentIds s) (Agent.id a)) eqn:E.
    + apply includes_true_iff. apply includes_true_iff in E.
      apply in_or_app.
      destruct (string_dec (Agent.id a) agentId) as [Heq|Hne];
        [right; left; now symmetry|].
      left. apply filter_In. split; [assumption|].
      destruct (String.eqb_spec (Agent.id a) agentId);
        [contradiction|reflexivity].
    + apply includes_false_iff. apply includes_false_iff in E.
      intros H. apply in_app_or in H. destruct H as [H|[Heq|[]]].
      * apply filter_In in H. tauto.
      * apply E. now rewrite <- Heq.
Qed.

(** ** The derived views over time *)

(** Filtering a catalog whose ids are pairwise distinct leaves its ids
    pairwise distinct. *)
Lemma view_ids_NoDup (selection : list string) (catalog : list Agent.t) :
  NoDup (map Agent.id catalog) ->
  NoDup
    (map Agent.id
       (filter (fun agent => includes selection (Agent.id agent)) catalog)).
Proof.
  intros Hnd. induction catalog as [|a catalog IH]; [exact Hnd|].
  cbn [map] in Hnd. apply NoDup_cons_iff in Hnd. destruct Hnd as [Hnin Hnd].
  cbn [filter]. destruct (includes selection (Agent.id a)); [|now apply IH].
  cbn [map]. apply NoDup_cons; [|now apply IH].
  intros Hin. apply Hnin. apply in_map_iff in Hin.
  destruct Hin as (z & Hz & Hzin). apply filter_In in Hzin.
  apply in_map_iff. exists z. tauto.
Qed.

Lemma defaultAgents_ids_NoDup : NoDup (map Agent.id defaultAgents).
Proof.
  cbn. repeat constructor; cbn; intros H;
    repeat (destruct H as [H|H]; [discriminate H|]); exact H.
Qed.

Lemma view_ids_selected (s : StoreState) :
  incl (map Agent.id (useSelectedAgents s)) (selectedAgentIds s).
Proof.
  intros id Hin. apply in_map_iff in Hin. destruct Hin as (a & <- & Ha).
  unfold useSelectedAgents in Ha. apply filter_In in Ha.
  now apply includes_true_iff.
Qed.

(** Callers that pass catalog ids only leave catalog ids in the two
    selections. *)
Lemma reachable_ids_from_catalog (w : World) :
  reachable_by catalog_ids_only w ->
  incl (selectedAgentIds (store w)) (map Agent.id defaultAgents)
  /\ In (selectedStrategy (store w)) (map Strategy.id defaultStrategies).
Proof.
  induction 1 as [env|w w' e _ [IHa IHs] Hok Hstep].
  - split; [intros id []|now left].
  - destruct (step_selection e w w' Hstep) as (_ & _ & Hsel & Hst).
    rewrite Hsel, Hst. split.
    + destruct e; try exact IHa.
      * destruct (selectAgent_selection (store w) agentId)
          as [->|(-> & _)]; [exact IHa|].
        apply incl_app; [exact IHa|].
        intros id [<-|[]]. exact Hok.
      * rewrite unselectAgent_selection. intros id Hin.
        apply filter_In in Hin. now apply IHa.
    + destruct e; try exact IHs. exact Hok.
Qed.

(** X6: the derived view never holds more entries than ids are selected,
    so never more than four. *)
Theorem selected_view_size (w : World) :
  reachable w ->
  (List.length (useSelectedAgents (store w))
   <= List.length (selectedAgentIds (store w)))%nat
  /\ (List.length (useSelectedAgents (store w)) <= 4)%nat.
Proof.
  intros Hreach.
  destruct (reachable_capacity _ _ Hreach) as [Hcap _].
  destruct (reachable_catalogs _ _ Hreach) as [Hcat _].
  assert (Hle : (List.length (useSelectedAgents (store w))
                 <= List.length (selectedAgentIds (store w)))%nat).
  { rewrite <- (length_map Agent.id (useSelectedAgents (store w))).
    apply NoDup_incl_length; [|apply view_ids_selected].
    unfold useSelectedAgents. apply view_ids_NoDup.
    rewrite Hcat. apply defaultAgents_ids_NoDup. }
  split; [exact Hle | lia].
Qed.

(** X7: when callers pass catalog ids only, the view shows every selected
    agent once: the ids of its entries are the selection up to order, and
    it has as many entries as ids are selected. *)
Theorem selected_view_complete (w : World) :
  reachable_by catalog_ids_only w ->
  Permutation (map Agent.id (useSelectedAgents (store w)))
    (selectedAgentIds (store w))
  /\ List.length (useSelectedAgents (store w))
     = List.length (selectedAgentIds (store w)).
Proof.
  intros Hreach.
  destruct (reachable_capacity _ _ Hreach) as [_ Hnd].
  destruct (reachable_catalogs _ _ Hreach) as [Hcat _].
  destruct (reachable_ids_from_catalog _ Hreach) as [Hids _].
  assert (Hperm : Permutation (map Agent.id (useSelectedAgents (store w)))
                    (selectedAgentIds (store w))).
  { apply NoDup_Permutation; [|exact Hnd|].
    - unfold useSelectedAgents. apply view_ids_NoDup.
      rewrite Hcat. apply defaultAgents_ids_NoDup.
    - intros id. split; [apply view_ids_selected|].
      intros Hin. pose proof (Hids id Hin) as Hc.
      apply in_map_iff in Hc. destruct Hc as (a & Hid & Ha).
      apply in_map_iff. exists a. split; [exact Hid|].
      unfold useSelectedAgents. apply filter_In. rewrite Hcat.
      split; [exact Ha|]. apply includes_true_iff. now rewrite Hid. }
  split; [exact Hperm|].
  rewrite <- (Permutation_length Hperm). now rewrite length_map.
Qed.

(** X8: [useSelectedStrategy] is a lookup by id: it yields nothing exactly
    when no strategy of the catalog carries the selected id, and otherwise
    the first catalog entry that carries it. *)
Theorem useSelectedStrategy_lookup (s : StoreState) :
  (useSelectedStrategy s = None
   <-> ~ strategy_in_catalog s (selectedStrategy s))
  /\ (forall st,
        useSelectedStrategy s = Some st ->
        In st (strategies s) /\ Strategy.id st = selectedStrategy s)
  /\ (forall before st after,
        strategies s = before ++ st :: after ->
        Strategy.id st = selectedStrategy s ->
        (forall x, In x before -> Strategy.id x <> selectedStrategy s) ->
        useSelectedStrategy s = Some st).
Proof.
  unfold useSelectedStrategy, strategy_in_catalog.
  split; [split|split].
  - intros Hnone (st & Hin & Hid).
    pose proof (find_none _ _ Hnone st Hin) as Hf. cbn beta in Hf.
    rewrite Hid, String.eqb_refl in Hf. discriminate.
  - intros Hno.
    destruct (find _ (strategies s)) as [st|] eqn:E; [|reflexivity].
    apply find_some in E. destruct E as [Hin Heq].
    apply String.eqb_eq in Heq. exfalso. apply Hno. now exists st.
  - intros st Hsome. apply find_some in Hsome. destruct Hsome as [Hin Heq].
    apply String.eqb_eq in Heq. now split.
  - intros before st after -> Hid Hbefore.
    induction before as [|x before IH]; cbn [app find].
    + now rewrite Hid, String.eqb_refl.
    + destruct (String.eqb_spec (Strategy.id x) (selectedStrategy s))
        as [E|_].
      * exfalso. apply (Hbefore x); [now left | exact E].
      * apply IH. intros y Hy. apply Hbefore. now right.
Qed.

(** X9: when callers pass catalog ids only, the lookup of the selected
    strategy always finds an entry of the catalog, with the selected id. *)
Theorem selected_strategy_defined (w : World) :
  reachable_by catalog_ids_only w ->
  exists st,
    useSelectedStrategy (store w) = Some st
    /\ Strategy.id st = selectedStrategy (store w)
    /\ In st defaultStrategies.
Proof.
  intros Hreach.
  destruct (reachable_catalogs _ _ Hreach) as [_ Hstrat].
  destruct (reachable_ids_from_catalog _ Hreach) as [_ Hid].
  unfold useSelectedStrategy. rewrite Hstrat.
  destruct (find _ defaultStrategies) as [st|] eqn:E.
  - apply find_some in E. destruct E as [Hin Heq].
    apply String.eqb_eq in Heq. now exists st.
  - exfalso. apply in_map_iff in Hid. destruct Hid as (st & Hst & Hin).
    pose proof (find_none _ _ E st Hin) as Hf. cbn beta in Hf.
    rewrite Hst, String.eqb_refl in Hf. discriminate.
Qed.

(** ** Messages, sidebars and settings *)

(** X10: appending composes: two [addMessages] in a row are one with the
    concatenated list, [addMessage] is [addMessages] of a one-element list,
    appending nothing changes nothing, and appending the messages of a list
    one by one is appending the list. *)
Theorem addMessages_compose (s : StoreState) (first second : list Message.t)
    (m : Message.t) :
  addMessages second (addMessages first s) = addMessages (first ++ second) s
  /\ addMessage m s = addMessages [m] s
  /\ addMessages [] s = s
  /\ fold_left (fun st x => addMessage x st) first s = addMessages first s.
Proof.
  split; [|split; [|split]].
  - unfold addMessages, set, addMessages_set, merge, only_messages. simpl.
    now rewrite app_assoc.
  - reflexivity.
  - unfold addMessages, set, addMessages_set, merge, only_messages. simpl.
    rewrite app_nil_r. destruct s; reflexivity.
  - revert s. induction first as [|x first IH]; intros s.
    + unfold addMessages, set, addMessages_set, merge, only_messages. simpl.
      rewrite app_nil_r. destruct s; reflexivity.
    + cbn [fold_left]. rewrite IH.
      unfold addMessages, addMessage, set, addMessages_set, addMessage_set,
        merge, only_messages. simpl. now rewrite <- app_assoc.
Qed.


(** X12: [updateApiSettings] merges key by key: of two updates in a row the
    later wins on the keys it gives and the earlier stands on the others;
    an update given twice is the update given once, the empty update
    changes nothing, and no key outside [apiSettings] is written. *)
Theorem updateApiSettings_merge (s : StoreState)
    (earlier later : ApiSettings.partial) :
  apiSettings (updateApiSettings later (updateApiSettings earlier s))
  = {| ApiSettings.apiUrl :=
         pick (ApiSettings.p_apiUrl later)
           (pick (ApiSettings.p_apiUrl earlier)
              (ApiSettings.apiUrl (apiSettings s)));
       ApiSettings.apiKey :=
         pick (ApiSettings.p_apiKey later)
           (pick (ApiSettings.p_apiKey earlier)
              (ApiSettings.apiKey (apiSettings s)));
       ApiSettings.backendType :=
         pick (ApiSettings.p_backendType later)
           (pick (ApiSettings.p_backendType earlier)
              (ApiSettings.backendType (apiSettings s)));
       ApiSettings.n8nConnectionStatus :=
         pick (ApiSettings.p_n8nConnectionStatus later)
           (pick (ApiSettings.p_n8nConnectionStatus earlier)
              (ApiSettings.n8nConnectionStatus (apiSettings s)));
       ApiSettings.useDemoMode :=
         pick (ApiSettings.p_useDemoMode later)
           (pick (ApiSettings.p_useDemoMode earlier)
              (ApiSettings.useDemoMode (apiSettings s))) |}
  /\ updateApiSettings later (updateApiSettings later s)
     = updateApiSettings later s
  /\ updateApiSettings (ApiSettings.mkPartial None None None None None) s = s
  /\ updateApiSettings later s
     = merge s {| p_apiSettings :=
                    Some (apiSettings (updateApiSettings later s));
                  p_agents := None; p_selectedAgentIds := None;
                  p_strategies := None; p_selectedStrategy := None;
                  p_conversations := None; p_currentConversation := None;
                  p_messages := None; p_isLeftSidebarOpen := None;
                  p_isRightSidebarOpen := None; p_isProcessing := None;
                  p_conversationStatus := None; p_currentTurn := None |}.
Proof.
  split; [|split; [|split]].
  - reflexivity.
  - unfold updateApiSettings, set, updateApiSettings_set, merge. simpl.
    f_equal. unfold ApiSettings.spread. simpl.
    destruct later as [u k b c d]; simpl.
    destruct u, k, b, c, d; reflexivity.
  - destruct s as [a]. destruct a. reflexivity.
  - reflexivity.
Qed.

(** X13: the initial API URL is never empty: it is the environment's value
    when that is set and not empty, and the localhost default otherwise;
    the initial key is the environment's value, or empty; demo mode starts
    off. *)
Theorem initialApiSettings_defaults (env : ProcessEnv) :
  ApiSettings.apiUrl (initialApiSettings env) <> ""%string
  /\ (forall url, NEXT_PUBLIC_AGENT_API_URL env = Some url ->
                  url <> ""%string ->
                  ApiSettings.apiUrl (initialApiSettings env) = url)
  /\ (NEXT_PUBLIC_AGENT_API_URL env = None
      \/ NEXT_PUBLIC_AGENT_API_URL env = Some ""%string ->
      ApiSettings.apiUrl (initialApiSettings env)
      = "http://localhost:5678"%string)
  /\ ApiSettings.apiKey (initialApiSettings env)
     = match NEXT_PUBLIC_AGENT_API_KEY env with
       | Some key => key
       | None => ""%string
       end
  /\ ApiSettings.useDemoMode (initialApiSettings env) = false.
Proof.
  unfold initialApiSettings, js_or. cbn [ApiSettings.apiUrl ApiSettings.apiKey
    ApiSettings.useDemoMode].
  split; [|split; [|split; [|split]]].
  - destruct (NEXT_PUBLIC_AGENT_API_URL env) as [url|]; [|discriminate].
    destruct (String.eqb_spec url ""); [discriminate|assumption].
  - intros url -> Hne. destruct (String.eqb_spec url "");
      [contradiction|reflexivity].
  - intros [->| ->]; reflexivity.
  - destruct (NEXT_PUBLIC_AGENT_API_KEY env) as [key|]; [|reflexivity].
    destruct (String.eqb_spec key ""); [now subst|reflexivity].
  - reflexivity.
Qed.

(** ** [submitQuery] beyond one uninterrupted run *)

Lemma resume_messages (env : SubmitEnv) (tid : string) (outcome : Outcome)
    (s : StoreState) :
  exists appended,
    messages (run (submitQuery_resume env tid outcome) s)
    = without_id tid (messages s) ++ appended
    /\ currentTurn (run (submitQuery_resume env tid outcome) s)
       = currentTurn s
    /\ isProcessing (run (submitQuery_resume env tid outcome) s) = false.
Proof.
  destruct outcome as [response|thrown].
  - destruct (Response.success response) eqn:E.
    + rewrite (resume_success env tid response s E).
      eexists. repeat split.
    + rewrite (resume_failure env tid response s E).
      eexists. repeat split.
  - rewrite resume_thrown. eexists. repeat split.
Qed.

(** X14: whatever the outcome and in whatever state it resumes, the
    continuation of [submitQuery] writes [messages], [isProcessing] and the
    status only: the turn counter, both selections, both catalogs, the
    settings, the conversations and the sidebar flags are what they were;
    and it drops no message but those carrying the placeholder's id, the
    others keeping their order at the head of the log. *)
Theorem resume_frame (env : SubmitEnv) (tid : string) (outcome : Outcome)
    (s : StoreState) :
  apiSettings (run (submitQuery_resume env tid outcome) s) = apiSettings s
  /\ agents (run (submitQuery_resume env tid outcome) s) = agents s
  /\ selectedAgentIds (run (submitQuery_resume env tid outcome) s)
     = selectedAgentIds s
  /\ strategies (run (submitQuery_resume env tid outcome) s) = strategies s
  /\ selectedStrategy (run (submitQuery_resume env tid outcome) s)
     = selectedStrategy s
  /\ conversations (run (submitQuery_resume env tid outcome) s)
     = conversations s
  /\ currentConversation (run (submitQuery_resume env tid outcome) s)
     = currentConversation s
  /\ isLeftSidebarOpen (run (submitQuery_resume env tid outcome) s)
     = isLeftSidebarOpen s
  /\ isRightSidebarOpen (run (submitQuery_resume env tid outcome) s)
     = isRightSidebarOpen s
  /\ currentTurn (run (submitQuery_resume env tid outcome) s) = currentTurn s
  /\ (exists appended,
        messages (run (submitQuery_resume env tid outcome) s)
        = without_id tid (messages s) ++ appended)
  /\ (forall m, In m (messages s) -> Message.id m <> tid ->
                In m (messages (run (submitQuery_resume env tid outcome) s))).
Proof.
  destruct (resume_messages env tid outcome s) as (appended & Hlog & _).
  assert (Hkeep : forall m, In m (messages s) -> Message.id m <> tid ->
            In m (messages (run (submitQuery_resume env tid outcome) s))).
  { intros m Hin Hne. rewrite Hlog. apply in_or_app. left.
    now apply without_id_kept. }
  destruct outcome as [response|thrown].
  - destruct (Response.success response) eqn:E.
    + rewrite (resume_success env tid response s E) in *.
      repeat split; try exact Hkeep. eexists. reflexivity.
    + rewrite (resume_failure env tid response s E) in *.
      repeat split; try exact Hkeep. eexists. reflexivity.
  - rewrite resume_thrown in *.
    repeat split; try exact Hkeep. eexists. reflexivity.
Qed.

(** X15: a submission with an agent selected uses up a turn however the
    backend call ends: the counter is one more than before on success and
    on failure alike, the selections are untouched, and the user's message
    stays in the log (its id not being the placeholder's), after the
    earlier messages and before whatever the outcome appends. *)
Theorem submitQuery_consumes_turn (backend : Backend) (env : SubmitEnv)
    (query : string) (s : StoreState) :
  selectedAgentIds s <> [] ->
  currentTurn (submitQuery backend env query s) = (currentTurn s + 1)%N
  /\ selectedAgentIds (submitQuery backend env query s) = selectedAgentIds s
  /\ selectedStrategy (submitQuery backend env query s) = selectedStrategy s
  /\ (uuid1 env <> Message.id (thinkingMessage env) ->
      exists appended,
        messages (submitQuery backend env query s)
        = without_id (Message.id (thinkingMessage env)) (messages s)
          ++ [userMessage env query] ++ appended).
Proof.
  intros Hsel.
  rewrite (submitQuery_unfold backend env query s Hsel).
  destruct (resume_messages env (Message.id (thinkingMessage env))
              (backend (call_of query s))
              (submitQuery_suspended env query s))
    as (appended & Hlog & Hturn & _).
  rewrite Hturn, Hlog.
  rewrite (suspended_without_thinking env query s Hsel).
  assert (Hframe :
    selectedAgentIds
      (run (submitQuery_resume env (Message.id (thinkingMessage env))
              (backend (call_of query s)))
         (submitQuery_suspended env query s))
    = selectedAgentIds (submitQuery_suspended env query s)
    /\ selectedStrategy
         (run (submitQuery_resume env (Message.id (thinkingMessage env))
                 (backend (call_of query s)))
            (submitQuery_suspended env query s))
       = selectedStrategy (submitQuery_suspended env query s)).
  { destruct (backend (call_of query s)) as [response|thrown].
    - destruct (Response.success response) eqn:E.
      + rewrite (resume_success env _ response _ E). now split.
      + rewrite (resume_failure env _ response _ E). now split.
    - rewrite resume_thrown. now split. }
  destruct Hframe as [-> ->].
  rewrite (submitQuery_suspended_state env query s Hsel).
  cbn [currentTurn selectedAgentIds selectedStrategy].
  repeat split.
  intros Huuid. exists appended. rewrite without_id_app.
  rewrite (without_id_unchanged _ [userMessage env query]).
  - now rewrite <- app_assoc.
  - intros m [<-|[]]. exact Huuid.
Qed.

Lemma drop_nth_length {A : Type} (n : nat) (l : list A) (x : A) :
  nth_error l n = Some x ->
  S (List.length (drop_nth n l)) = List.length l.
Proof.
  revert n. induction l as [|y l IH]; intros [|n] H; try discriminate.
  - reflexivity.
  - cbn [drop_nth List.length]. f_equal. now apply IH.
Qed.

(** X16: [isProcessing] does not count the calls in flight: any answer sets
    it to false and retires one suspended call, so with other calls still
    suspended the store reports that it is not processing. *)
Theorem answer_ends_processing (w w' : World) (n : nat) (env : SubmitEnv)
    (outcome : Outcome) :
  step (BackendAnswers n env outcome) w = Some w' ->
  isProcessing (store w') = false
  /\ S (List.length (inflight w')) = List.length (inflight w)
  /\ currentTurn (store w') = currentTurn (store w).
Proof.
  cbn [step]. destruct (nth_error (inflight w) n) as [p|] eqn:E;
    [|discriminate].
  intros H. injection H as <-. cbn [store inflight].
  destruct (resume_messages env (thinkingId p) outcome (store w))
    as (_ & _ & Hturn & Hproc).
  split; [exact Hproc|]. split; [|exact Hturn].
  exact (drop_nth_length n (inflight w) p E).
Qed.

(** X17: resetting the conversation does not cancel a call in flight: the
    call stays suspended, and a successful answer that comes after the
    reset puts its messages into the emptied log, with the status still
    [idle] and the turn counter still 0. *)
Theorem answer_after_reset (w : World) (n : nat) (p : Pending)
    (env : SubmitEnv) (response : Response.t) :
  nth_error (inflight w) n = Some p ->
  Response.success response = true ->
  exists w',
    run_events
      [Do_resetConversation; BackendAnswers n env (Resolved response)] w
    = Some w'
    /\ messages (store w') = Response.messages response
    /\ conversationStatus (store w') = idle
    /\ currentTurn (store w') = 0%N
    /\ isProcessing (store w') = false.
Proof.
  intros Hnth Hok. cbn [run_events step on_store inflight store].
  rewrite Hnth. eexists. split; [reflexivity|]. cbn [store].
  rewrite (resume_success env _ response _ Hok). repeat split.
Qed.

(** X18: a submission is not held back by one already in flight: from any
    world with an agent selected, whatever [isProcessing] says, two
    submissions in a row both reach the backend; the log gains the two user
    messages and the two placeholders in order, the turn counter goes up by
    two and both calls are suspended. *)
Theorem overlapping_submissions (w : World) (env1 env2 : SubmitEnv)
    (query1 query2 : string) :
  selectedAgentIds (store w) <> [] ->
  exists w',
    run_events [Do_submitQuery env1 query1; Do_submitQuery env2 query2] w
    = Some w'
    /\ messages (store w')
       = messages (store w)
         ++ [userMessage env1 query1; thinkingMessage env1;
             userMessage env2 query2; thinkingMessage env2]
    /\ currentTurn (store w') = (currentTurn (store w) + 2)%N
    /\ isProcessing (store w') = true
    /\ inflight w'
       = inflight w
         ++ [ {| request := call_of query1 (store w);
                 thinkingId := Message.id (thinkingMessage env1) |};
              {| request := call_of query2 (store w);
                 thinkingId := Message.id (thinkingMessage env2) |} ].
Proof.
  intros Hsel. cbn [run_events step].
  pose proof (submitQuery_begin_pending env1 query1 (store w) Hsel) as Hp1.
  pose proof (submitQuery_suspended_state env1 query1 (store w) Hsel) as Hs1.
  unfold submitQuery_suspended in Hs1.
  destruct (submitQuery_begin env1 query1 (store w)) as [us1 p1].
  cbn [snd fst] in Hp1, Hs1. subst p1. rewrite Hs1. cbn [store inflight].
  match goal with
  | |- context [submitQuery_begin env2 query2 ?s1] => set (s1mid := s1)
  end.
  assert (Hsel1 : selectedAgentIds s1mid <> []) by exact Hsel.
  pose proof (submitQuery_begin_pending env2 query2 s1mid Hsel1) as Hp2.
  pose proof (submitQuery_suspended_state env2 query2 s1mid Hsel1) as Hs2.
  unfold submitQuery_suspended in Hs2.
  destruct (submitQuery_begin env2 query2 s1mid) as [us2 p2].
  cbn [snd fst] in Hp2, Hs2. subst p2. rewrite Hs2.
  eexists. split; [reflexivity|]. cbn [store inflight messages currentTurn
    isProcessing]. subst s1mid. cbn [messages currentTurn].
  split; [now rewrite <- app_assoc|]. split; [lia|]. split; [reflexivity|].
  rewrite <- app_assoc. reflexivity.
Qed.

(** ** Placeholder ids *)

Lemma to_int_not_nil (z : Z) :
  Z.to_int z <> Decimal.Pos Decimal.Nil /\ Z.to_int z <> Decimal.Neg Decimal.Nil.
Proof.
  destruct z as [|p|p]; cbn; split; try discriminate;
    intros H; injection H as H; exact (Unsigned.to_uint_nonnil p H).
Qed.

Lemma string_of_number_inj (a b : Z) :
  string_of_number a = string_of_number b -> a = b.
Proof.
  unfold string_of_number. intros H. apply DecimalZ.to_int_inj.
  destruct (to_int_not_nil a) as [Ha1 Ha2].
  destruct (to_int_not_nil b) as [Hb1 Hb2].
  pose proof (NilZero.isi (Z.to_int a) Ha1 Ha2) as Ia.
  pose proof (NilZero.isi (Z.to_int b) Hb1 Hb2) as Ib.
  rewrite H in Ia. congruence.
Qed.

Lemma append_inj_l (p x y : string) : (p ++ x = p ++ y)%string -> x = y.
Proof.
  induction p as [|c p IH]; cbn; intros H; [exact H|].
  injection H as H. now apply IH.
Qed.

(** X19: the placeholder's id is a function of the millisecond the
    submission started in and of nothing else.  Submissions started in
    different milliseconds have different placeholder ids, and the answer
    to one leaves the other's placeholder in the log; submissions started
    in the same millisecond share the id, and the first answer takes both
    placeholders out. *)
Theorem placeholder_ids (env1 env2 : SubmitEnv) :
  (Message.id (thinkingMessage env1) = Message.id (thinkingMessage env2)
   <-> date_now env1 = date_now env2)
  /\ (forall env outcome s,
        In (thinkingMessage env2) (messages s) ->
        date_now env1 <> date_now env2 ->
        In (thinkingMessage env2)
          (messages
             (run (submitQuery_resume env (Message.id (thinkingMessage env1))
                     outcome) s)))
  /\ (forall env thrown s,
        date_now env1 = date_now env2 ->
        ~ In (thinkingMessage env2)
            (messages
               (run (submitQuery_resume env
                       (Message.id (thinkingMessage env1)) (Rejected thrown))
                  s))).
Proof.
  assert (Hid : Message.id (thinkingMessage env1)
                = Message.id (thinkingMessage env2)
                <-> date_now env1 = date_now env2).
  { cbn [thinkingMessage Message.id]. split.
    - intros H. apply append_inj_l in H. now apply string_of_number_inj.
    - now intros ->. }
  split; [exact Hid|]. split.
  - intros env outcome s Hin Hne.
    destruct (resume_messages env (Message.id (thinkingMessage env1))
                outcome s) as (appended & -> & _).
    apply in_or_app. left. apply without_id_kept; [exact Hin|].
    intros E. apply Hne. apply Hid. now symmetry.
  - intros env thrown s Heq Hin. rewrite resume_thrown in Hin.
    cbn [merge messages pick p_messages] in Hin.
    apply in_app_or in Hin. destruct Hin as [Hin|[Hin|[]]].
    + apply without_id_absent in Hin. apply Hin. symmetry. now apply Hid.
    + apply (f_equal Message.type) in Hin. discriminate Hin.
Qed.

(** ** What one event does to the turn counter and to the log *)

(** X20: the turn counter moves in two ways only: [resetConversation] sets
    it to 0 and a submission with an agent selected adds one; every other
    event, an answer of the backend included, leaves it as it is. *)
Theorem turn_counter_steps (e : Event) (w w' : World) :
  step e w = Some w' ->
  currentTurn (store w')
  = match e with
    | Do_resetConversation => 0%N
    | Do_submitQuery _ _ =>
        match selectedAgentIds (store w) with
        | [] => currentTurn (store w)
        | _ :: _ => (currentTurn (store w) + 1)%N
        end
    | _ => currentTurn (store w)
    end.
Proof.
  destruct e; cbn [step]; intros H.
  1-11: injection H as <-; cbn [on_store store]; try reflexivity.
  - now rewrite (selectAgent_frame (store w) agentId).
  - unfold submitQuery_begin in H.
    destruct (selectedAgentIds (store w)); injection H as <-; reflexivity.
  - destruct (nth_error (inflight w) n) as [p|]; [|discriminate].
    injection H as <-. cbn [store].
    now destruct (resume_messages env (thinkingId p) outcome (store w))
      as (_ & _ & Hturn & _).
Qed.

(** X21: the log is append-only but for two events: [resetConversation]
    empties it, and an answer of the backend first filters out the messages
    carrying the placeholder id of the call it answers; every other event
    keeps the whole log as a prefix of the new one. *)
Theorem log_append_only (e : Event) (w w' : World) :
  step e w = Some w' ->
  match e with
  | Do_resetConversation => messages (store w') = []
  | BackendAnswers n _ _ =>
      exists p appended,
        nth_error (inflight w) n = Some p
        /\ messages (store w')
           = without_id (thinkingId p) (messages (store w)) ++ appended
  | _ =>
      exists appended, messages (store w') = messages (store w) ++ appended
  end.
Proof.
  destruct e; cbn [step]; intros H.
  1-11: injection H as <-; cbn [on_store store];
        try reflexivity;
        try (exists []; now rewrite app_nil_r);
        try (eexists; reflexivity).
  - exists []. rewrite app_nil_r.
    now rewrite (selectAgent_frame (store w) agentId).
  - unfold submitQuery_begin in H.
    destruct (List.length (selectedAgentIds (store w)) =? 0)%nat;
      injection H as <-; cbn [store].
    + eexists. reflexivity.
    + exists [userMessage env query; thinkingMessage env].
      unfold run, set, merge, addMessage_set, only_messages, pick. simpl.
      now rewrite <- app_assoc.
  - destruct (nth_error (inflight w) n) as [p|]; [|discriminate].
    injection H as <-. cbn [store].
    destruct (resume_messages env (thinkingId p) outcome (store w))
      as (appended & Hlog & _).
    exists p, appended. now split.
Qed.

End Store.

(** * Concrete runs *)

Definition no_env : ProcessEnv :=
  {| NEXT_PUBLIC_AGENT_API_URL := None; NEXT_PUBLIC_AGENT_API_KEY := None |}.

Definition fresh : @StoreState unit := initial_state no_env.

(** One agent selected. *)
Definition one_selected : @StoreState unit := selectAgent "data-analyst" fresh.

(** Four agents selected, in this order. *)
Definition four_selected : @StoreState unit :=
  selectAgent "data-engineer"
    (selectAgent "data-architect"
       (selectAgent "data-scientist" (selectAgent "data-analyst" fresh))).

Definition sample_env : SubmitEnv :=
  {| uuid1 := "9b1deb4d-3b7d-4bad-9bdd-2b0d7b3dcb6d";
     date1 := 1700000000000%Z;
     date_now := 1700000000001%Z;
     date2 := 1700000000001%Z;
     uuid2 := "1b9d6bcd-bbfd-4b2d-9b5d-ab8dfbbd4bed";
     date3 := 1700000000950%Z |}.

Definition reply (n : string) (text : string) : Message.t :=
  {| Message.id := n;
     Message.content := text;
     Message.role := assistant;
     Message.agentId := Some "data-analyst";
     Message.agentName := Some "Data Analyst";
     Message.type := None;
     Message.createdAt := 1700000000900%Z |}.

Definition two_replies : Response.t :=
  {| Response.success := true;
     Response.messages := [reply "r1" "First."; reply "r2" "Second."];
     Response.error := None |}.

(** A response flagged unsuccessful whose error text is the empty string. *)
Definition empty_error : Response.t :=
  {| Response.success := false;
     Response.messages := [];
     Response.error := Some ""%string |}.

Definition quota_error : Response.t :=
  {| Response.success := false;
     Response.messages := [];
     Response.error := Some "quota exceeded"%string |}.

Definition answering (o : Outcome) : Backend := fun _ => o.

Lemma one_selected_nonempty : selectedAgentIds one_selected <> [].
Proof. discriminate. Defined.

(** The view follows the catalog, not the order of selection. *)
Example view_in_catalog_order :
  selectedAgentIds four_selected
  = ["data-analyst"; "data-scientist"; "data-architect"; "data-engineer"]
  /\ map Agent.id (useSelectedAgents four_selected)
     = ["data-architect"; "data-analyst"; "data-scientist"; "data-engineer"].
Proof. split; reflexivity. Qed.

(** A returned message that carries the placeholder's id is appended like
    any other: only the log as it was before the answer is filtered. *)
Example returned_placeholder_id_is_kept :
  map Message.id
    (messages
       (submitQuery
          (answering
             (Resolved
                {| Response.success := true;
                   Response.messages := [reply "thinking-1700000000001" "Hi."];
                   Response.error := None |}))
          sample_env "hello" one_selected))
  = ["9b1deb4d-3b7d-4bad-9bdd-2b0d7b3dcb6d"; "thinking-1700000000001"].
Proof. reflexivity. Qed.

Lemma submitQuery_success_witness :
  selectedAgentIds one_selected <> []
  /\ map Message.content
       (messages
          (submitQuery (answering (Resolved two_replies)) sample_env "hello"
             one_selected))
     = ["hello"; "First."; "Second."]%string
  /\ currentTurn
       (submitQuery (answering (Resolved two_replies)) sample_env "hello"
          one_selected)
     = (currentTurn one_selected + 1)%N
  /\ conversationStatus
       (submitQuery (answering (Resolved two_replies)) sample_env "hello"
          one_selected)
     = active.
Proof.
  split; [exact one_selected_nonempty|].
  destruct (submitQuery_success (answering (Resolved two_replies)) sample_env
              "hello" one_selected two_replies one_selected_nonempty
              eq_refl eq_refl)
    as (_ & _ & _ & _ & (kept & Hlog & Hkept & _) & _ & Hturn & Hstatus & _).
  split; [|split; assumption].
  rewrite Hlog, Hkept. reflexivity.
Defined.

Lemma submitQuery_no_agents_witness :
  selectedAgentIds fresh = []
  /\ map Message.role
       (messages
          (submitQuery (answering (Resolved two_replies)) sample_env "" fresh))
     = [system]
  /\ isProcessing
       (submitQuery (answering (Resolved two_replies)) sample_env "" fresh)
     = false
  /\ currentTurn
       (submitQuery (answering (Resolved two_replies)) sample_env "" fresh)
     = 0%N.
Proof.
  split; [reflexivity|].
  destruct (submitQuery_no_agents (answering (Resolved two_replies))
              sample_env "" fresh eq_refl)
    as (_ & _ & (m & Hlog & Hrole & _) & Hproc & _ & Hturn & _).
  split; [|split; assumption].
  rewrite Hlog. cbn [fresh initial_state messages app map]. now rewrite Hrole.
Defined.

Lemma submitQuery_finally_witness :
  selectedAgentIds one_selected <> []
  /\ isProcessing
       (submitQuery (answering (Rejected (ThrownError "timeout"))) sample_env
          "hello" one_selected)
     = false.
Proof.
  split; [exact one_selected_nonempty|].
  exact (proj1 (submitQuery_finally
                  (answering (Rejected (ThrownError "timeout"))) sample_env
                  "hello" one_selected one_selected_nonempty)).
Defined.

(** C4, as first stated, fails on a response flagged unsuccessful whose
    error text is present and empty: the appended message does not carry
    that text but the fallback. *)
Lemma submitQuery_empty_error_text :
  selectedAgentIds one_selected <> []
  /\ Response.success empty_error = false
  /\ Response.error empty_error = Some ""%string
  /\ exists kept m,
       messages
         (submitQuery (answering (Resolved empty_error)) sample_env "hello"
            one_selected)
       = kept ++ [m]
       /\ Message.role m = system
       /\ Message.content m = "An unknown error occurred"%string
       /\ Message.content m <> ""%string.
Proof.
  split; [exact one_selected_nonempty|].
  split; [reflexivity|]. split; [reflexivity|].
  exists [userMessage sample_env "hello"].
  exists (errorMessage sample_env "An unknown error occurred").
  split; [reflexivity|]. split; [reflexivity|]. split; [reflexivity|].
  discriminate.
Qed.

Lemma submitQuery_failure_witness :
  selectedAgentIds one_selected <> []
  /\ map Message.content
       (messages
          (submitQuery (answering (Resolved quota_error)) sample_env "hello"
             one_selected))
     = ["hello"; "quota exceeded"]%string
  /\ map Message.content
       (messages
          (submitQuery (answering (Rejected (ThrownError "timeout")))
             sample_env "hello" one_selected))
     = ["hello"; "Error: timeout"]%string.
Proof.
  split; [exact one_selected_nonempty|]. split.
  - destruct (proj1 (submitQuery_failure (answering (Resolved quota_error))
                       sample_env "hello" one_selected one_selected_nonempty)
                quota_error eq_refl eq_refl)
      as (text & Hlog & Htext & _).
    rewrite Hlog, (Htext "quota exceeded"%string eq_refl); [reflexivity|].
    discriminate.
  - destruct (proj1 (proj2 (submitQuery_failure
                              (answering (Rejected (ThrownError "timeout")))
                              sample_env "hello" one_selected
                              one_selected_nonempty))
                (ThrownError "timeout") eq_refl)
      as (text & Hlog & Htext & _).
    rewrite Hlog, (Htext "timeout"%string eq_refl). reflexivity.
Defined.

Lemma selectAgent_cases_witness :
  (List.length (selectedAgentIds four_selected) <= 4)%nat
  /\ selectAgent "data-governance" four_selected = four_selected
  /\ selectedAgentIds (selectAgent "data-scientist" four_selected)
     = selectedAgentIds four_selected
  /\ selectedAgentIds (selectAgent "data-architect" one_selected)
     = ["data-analyst"; "data-architect"]%string.
Proof.
  assert (H4 : (List.length (selectedAgentIds four_selected) <= 4)%nat)
    by (apply Nat.leb_le; reflexivity).
  assert (H1 : (List.length (selectedAgentIds one_selected) <= 4)%nat)
    by (apply Nat.leb_le; reflexivity).
  split; [exact H4|]. split; [|split].
  - apply (proj1 (selectAgent_cases four_selected "data-governance" H4));
      [reflexivity|].
    apply includes_false_iff. reflexivity.
  - apply (proj1 (proj2 (selectAgent_cases four_selected "data-scientist" H4))).
    apply includes_true_iff. reflexivity.
  - apply (proj2 (proj2 (selectAgent_cases one_selected "data-architect" H1))).
    + intros [Hlen _]. discriminate Hlen.
    + apply includes_false_iff. reflexivity.
Defined.

(** A world reached by handing the store ids that are in no catalog. *)
Definition stray_world : @World unit :=
  {| store := setSelectedStrategy "round-robin" (selectAgent "intruder" fresh);
     inflight := [] |}.

Lemma stray_world_reachable : reachable stray_world.
Proof.
  apply (reachable_by_run_events (fun _ => True)
           [Do_selectAgent "intruder"; Do_setSelectedStrategy "round-robin"]
           (initial_world no_env)).
  - apply reach_init.
  - repeat constructor.
  - reflexivity.
Qed.

(** C6, as first stated, fails: two actions from the initial state select
    an agent id and a strategy id that no catalog entry carries. *)
Lemma selection_outside_catalog :
  exists w : @World unit,
    reachable w
    /\ In "intruder"%string (selectedAgentIds (store w))
    /\ ~ agent_in_catalog (store w) "intruder"
    /\ ~ strategy_in_catalog (store w) (selectedStrategy (store w))
    /\ ~ selection_in_catalog (store w).
Proof.
  exists stray_world.
  assert (Hagent : ~ agent_in_catalog (store stray_world) "intruder").
  { intros (a & Hin & Hid). cbn in Hin.
    repeat (destruct Hin as [<-|Hin]; [discriminate Hid|]). exact Hin. }
  split; [exact stray_world_reachable|].
  split; [now left|]. split; [exact Hagent|].
  split.
  - intros (st & Hin & Hid). cbn in Hin.
    repeat (destruct Hin as [<-|Hin]; [discriminate Hid|]). exact Hin.
  - intros [Hsel _]. apply Hagent, Hsel. now left.
Qed.

Lemma selection_in_catalog_invariant_witness :
  selection_in_catalog
    (setSelectedStrategy "debate"
       (unselectAgent "data-analyst"
          (selectAgent "data-scientist" one_selected)) : @StoreState unit).
Proof.
  apply (selection_in_catalog_invariant
           {| store :=
                setSelectedStrategy "debate"
                  (unselectAgent "data-analyst"
                     (selectAgent "data-scientist" one_selected));
              inflight := [] |}).
  apply (reachable_by_run_events catalog_ids_only
           [Do_selectAgent "data-analyst"; Do_selectAgent "data-scientist";
            Do_unselectAgent "data-analyst"; Do_setSelectedStrategy "debate"]
           (initial_world no_env)).
  - apply reach_init.
  - repeat constructor; cbn; tauto.
  - reflexivity.
Defined.

(** ** Concrete runs for the further properties *)

Definition four_world : @World unit :=
  {| store := four_selected; inflight := [] |}.

Definition four_events : list Event :=
  [Do_selectAgent "data-analyst"; Do_selectAgent "data-scientist";
   Do_selectAgent "data-architect"; Do_selectAgent "data-engineer"].

Lemma four_world_from_catalog : reachable_by catalog_ids_only four_world.
Proof.
  apply (reachable_by_run_events catalog_ids_only four_events
           (initial_world no_env)).
  - apply reach_init.
  - repeat constructor; cbn; tauto.
  - reflexivity.
Defined.

Lemma four_world_reachable : reachable four_world.
Proof.
  apply (reachable_by_run_events (fun _ => True) four_events
           (initial_world no_env)).
  - apply reach_init.
  - repeat constructor.
  - reflexivity.
Defined.

(** One submission from [one_selected], suspended at its [await]. *)
Definition waiting_world : @World unit :=
  {| store := submitQuery_suspended sample_env "hello" one_selected;
     inflight :=
       [ {| request := call_of "hello" one_selected;
            thinkingId := Message.id (thinkingMessage sample_env) |} ] |}.

Lemma selection_capacity_invariant_witness :
  (List.length (selectedAgentIds (store four_world)) <= 4)%nat
  /\ NoDup (selectedAgentIds (store four_world)).
Proof. exact (selection_capacity_invariant four_world four_world_reachable).
Defined.

Lemma catalogs_never_change_witness :
  agents (store four_world) = defaultAgents
  /\ strategies (store four_world) = defaultStrategies.
Proof. exact (catalogs_never_change four_world four_world_reachable).
Defined.

Lemma select_then_unselect_witness :
  unselectAgent "data-architect" (selectAgent "data-architect" one_selected)
  = one_selected.
Proof.
  apply (select_then_unselect one_selected "data-architect").
  - apply includes_false_iff. reflexivity.
  - apply Nat.ltb_lt. reflexivity.
Defined.

Lemma reselect_moves_to_end_witness :
  selectedAgentIds
    (selectAgent "data-analyst" (unselectAgent "data-analyst" four_selected))
  = ["data-scientist"; "data-architect"; "data-engineer"; "data-analyst"]
  /\ useSelectedAgents
       (selectAgent "data-analyst"
          (unselectAgent "data-analyst" four_selected))
     = useSelectedAgents four_selected.
Proof.
  assert (Hin : In "data-analyst"%string (selectedAgentIds four_selected))
    by (apply includes_true_iff; reflexivity).
  assert (Hcap : (List.length (selectedAgentIds four_selected) <= 4)%nat)
    by (apply Nat.leb_le; reflexivity).
  destruct (reselect_moves_to_end four_selected "data-analyst" Hin Hcap)
    as [Hsel Hview].
  split; [|exact Hview]. rewrite Hsel. reflexivity.
Defined.

Lemma selected_view_size_witness :
  (List.length (useSelectedAgents (store four_world))
   <= List.length (selectedAgentIds (store four_world)))%nat
  /\ (List.length (useSelectedAgents (store four_world)) <= 4)%nat.
Proof. exact (selected_view_size four_world four_world_reachable). Defined.

Lemma selected_view_complete_witness :
  Permutation (map Agent.id (useSelectedAgents (store four_world)))
    (selectedAgentIds (store four_world))
  /\ List.length (useSelectedAgents (store four_world))
     = List.length (selectedAgentIds (store four_world)).
Proof. exact (selected_view_complete four_world four_world_from_catalog).
Defined.

Lemma selected_strategy_defined_witness :
  exists st,
    useSelectedStrategy (store four_world) = Some st
    /\ Strategy.id st = selectedStrategy (store four_world)
    /\ In st defaultStrategies.
Proof. exact (selected_strategy_defined four_world four_world_from_catalog).
Defined.

Lemma submitQuery_consumes_turn_witness :
  currentTurn
    (submitQuery (answering (Resolved quota_error)) sample_env "hello"
       one_selected)
  = 1%N
  /\ selectedAgentIds
       (submitQuery (answering (Resolved quota_error)) sample_env "hello"
          one_selected)
     = ["data-analyst"]%string.
Proof.
  destruct (submitQuery_consumes_turn (answering (Resolved quota_error))
              sample_env "hello" one_selected one_selected_nonempty)
    as (Hturn & Hsel & _).
  rewrite Hturn, Hsel. split; reflexivity.
Defined.

Lemma answer_ends_processing_witness :
  isProcessing (store waiting_world) = true
  /\ isProcessing
       (run (submitQuery_resume sample_env
               (Message.id (thinkingMessage sample_env))
               (Rejected ThrownOther))
          (store waiting_world))
     = false.
Proof.
  split; [reflexivity|].
  exact (proj1 (answer_ends_processing waiting_world
                  {| store :=
                       run (submitQuery_resume sample_env
                              (Message.id (thinkingMessage sample_env))
                              (Rejected ThrownOther))
                         (store waiting_world);
                     inflight := [] |}
                  0 sample_env (Rejected ThrownOther) eq_refl)).
Defined.

Lemma answer_after_reset_witness :
  exists w',
    run_events
      [Do_resetConversation; BackendAnswers 0 sample_env (Resolved two_replies)]
      waiting_world
    = Some w'
    /\ messages (store w') = Response.messages two_replies
    /\ conversationStatus (store w') = idle
    /\ currentTurn (store w') = 0%N
    /\ isProcessing (store w') = false.
Proof.
  exact (answer_after_reset waiting_world 0
           {| request := call_of "hello" one_selected;
              thinkingId := Message.id (thinkingMessage sample_env) |}
           sample_env two_replies eq_refl eq_refl).
Defined.

Lemma overlapping_submissions_witness :
  exists w',
    run_events
      [Do_submitQuery sample_env "hello"; Do_submitQuery sample_env "again"]
      waiting_world
    = Some w'
    /\ currentTurn (store w') = 3%N
    /\ List.length (inflight w') = 3%nat.
Proof.
  destruct (overlapping_submissions waiting_world sample_env sample_env
              "hello" "again" one_selected_nonempty)
    as (w' & Hrun & _ & Hturn & _ & Hin).
  exists w'. split; [exact Hrun|]. rewrite Hturn, Hin. split; reflexivity.
Defined.

Lemma turn_counter_steps_witness :
  currentTurn (store waiting_world) = 1%N
  /\ currentTurn (resetConversation (store waiting_world)) = 0%N.
Proof.
  split; [reflexivity|].
  exact (turn_counter_steps Do_resetConversation waiting_world
           (on_store resetConversation waiting_world) eq_refl).
Defined.

Lemma log_append_only_witness :
  exists appended,
    messages (addMessage (reply "r0" "Note.") (store waiting_world))
    = messages (store waiting_world) ++ appended.
Proof.
  exact (log_append_only (Do_addMessage (reply "r0" "Note.")) waiting_world
           (on_store (addMessage (reply "r0" "Note.")) waiting_world) eq_refl).
Defined.
